(** * ts-kit: the reactive state reporter, its operations and its equality oracle

    A shallow embedding of
    - [src/objects/shallow-equal.ts] and [src/objects/equality.ts]
      ([shallowEqual]),
    - [observability/metrics/operations.ts] ([set], [add], [sub]),
    - [observability/metrics/reporter.ts] in its two variants: the batching
      [Reporter<T>] (apply / set / add / sub / prune / transform / watch)
      and the earlier [Reporter] whose [add] and [sub] throw,
    together with the few RxJS operators the reporter pipes its subject
    through.

    JavaScript numbers are IEEE 754 doubles: they are modelled by Rocq's
    primitive floats.  State maps are plain objects used as dictionaries:
    they are modelled by [gmap string Value], the map of their own
    properties.  What a state map inherits from [Object.prototype] is not
    part of that map.  [Js.inherited] names the keys it concerns;
    [State.own_names] and [State.assignable] are the conditions under
    which a read and an assignment of the model are those of the source,
    and the theorems on [set], on the deltas that [apply] merges and on
    the earlier reporters have them as hypotheses. *)

From Stdlib Require Import Floats.
From stdpp Require Import gmap strings list fin_maps.

Open Scope string_scope.
Open Scope list_scope.

(** ** JavaScript values *)

Module Js.

(** [ReporterValue = string | number | boolean | null | undefined | object].
    A member of [object] is opaque here: only its identity (a reference)
    and whether it is callable, which decides [typeof], are observable. *)
Inductive Value : Type :=
| VString (s : string)
| VNumber (n : float)
| VBoolean (b : bool)
| VNull
| VUndefined
| VObject (ref : positive)
| VFunction (ref : positive).

(** The [typeof] operator. *)
Definition typeof (v : Value) : string :=
  match v with
  | VString _ => "string"
  | VNumber _ => "number"
  | VBoolean _ => "boolean"
  | VNull => "object"
  | VUndefined => "undefined"
  | VObject _ => "object"
  | VFunction _ => "function"
  end.

(** Identity of two IEEE values as SameValue sees them: the sign of a zero
    counts, and NaN is identical to NaN. *)
Definition spec_float_same (x y : spec_float) : bool :=
  match x, y with
  | S754_zero s, S754_zero t => Bool.eqb s t
  | S754_infinity s, S754_infinity t => Bool.eqb s t
  | S754_nan, S754_nan => true
  | S754_finite s m e, S754_finite t n f =>
      Bool.eqb s t && Pos.eqb m n && Z.eqb e f
  | _, _ => false
  end.

(** SameValue on numbers. *)
Definition same_value (x y : float) : bool :=
  spec_float_same (Prim2SF x) (Prim2SF y).

(** [Object.is(x, y)]. *)
Definition object_is (x y : Value) : bool :=
  match x, y with
  | VString s, VString t => String.eqb s t
  | VNumber a, VNumber b => same_value a b
  | VBoolean a, VBoolean b => Bool.eqb a b
  | VNull, VNull => true
  | VUndefined, VUndefined => true
  | VObject r, VObject s => Pos.eqb r s
  | VFunction r, VFunction s => Pos.eqb r s
  | _, _ => false
  end.

(** ToBoolean, as [!v] and [if (v)] apply it. *)
Definition to_boolean (v : Value) : bool :=
  match v with
  | VString s => negb (String.eqb s EmptyString)
  | VNumber n => negb (PrimFloat.is_zero n || PrimFloat.is_nan n)
  | VBoolean b => b
  | VNull => false
  | VUndefined => false
  | VObject _ => true
  | VFunction _ => true
  end.

(** The cast [v as number], used only under a [typeof v === "number"] test. *)
Definition as_number (v : Value) : float :=
  match v with
  | VNumber n => n
  | _ => PrimFloat.nan
  end.

(** A data property of an object: its value and its [enumerable] attribute. *)
Record Property : Type := mkProperty {
  prop_value : Value;
  prop_enumerable : bool;
}.

(** An object: its identity, whether it is callable ([typeof] is then
    "function"), and its own string-keyed data properties. *)
Record Object : Type := mkObject {
  obj_ref : positive;
  obj_callable : bool;
  obj_props : gmap string Property;
}.

Definition typeof_object (o : Object) : string :=
  if obj_callable o then "function" else "object".

(** [Object.keys(o)]: the enumerable own keys. *)
Definition keys (o : Object) : list string :=
  (map_to_list (filter (λ kp, prop_enumerable kp.2 = true) (obj_props o))).*1.

(** [Object.hasOwn(o, key)]: any own property, enumerable or not. *)
Definition hasOwn (o : Object) (key : string) : bool :=
  bool_decide (is_Some (obj_props o !! key)).

(** [o[key]]. *)
Definition get (o : Object) (key : string) : Value :=
  match obj_props o !! key with
  | Some p => prop_value p
  | None => VUndefined
  end.

(** [a === b] and [Object.is(a, b)] on two objects: the same reference. *)
Definition same_object (a b : Object) : bool :=
  Pos.eqb (obj_ref a) (obj_ref b).

(** The members of [Object.prototype].  A plain object inherits them:
    read under one of these keys, an object that has no own property of
    that name yields the inherited member and not [undefined]; and
    ["__proto__"] is an accessor, so an assignment under that key runs
    its setter and creates no own property. *)
Definition object_prototype_members : list string :=
  ["constructor"; "__defineGetter__"; "__defineSetter__"; "hasOwnProperty";
   "__lookupGetter__"; "__lookupSetter__"; "isPrototypeOf";
   "propertyIsEnumerable"; "toString"; "valueOf"; "__proto__";
   "toLocaleString"].

(** Whether [key] names a member of [Object.prototype]. *)
Definition inherited (key : string) : bool :=
  existsb (String.eqb key) object_prototype_members.

End Js.

(** ** [src/objects/shallow-equal.ts] *)

Module ShallowEqual.
Import Js.

(** The body of [for (const key of aKeys) { ... }], which returns [false]
    at the first key that [b] lacks or holds a different value for. *)
Fixpoint compare_keys (a b : Object) (aKeys : list string) : bool :=
  match aKeys with
  | [] => true
  | key :: rest =>
      if negb (hasOwn b key) then false
      else if negb (object_is (get a key) (get b key)) then false
      else compare_keys a b rest
  end.

(** [shallowEqual<T extends object>(a: T, b: T)].  The arguments are
    objects, so [a === null] is never taken; [typeof a !== "object"] is,
    for a callable argument. *)
Definition shallowEqual (a b : Object) : bool :=
  if negb (String.eqb (typeof_object a) "object")
     || negb (String.eqb (typeof_object b) "object")
  then same_object a b
  else
    let aKeys := keys a in
    let bKeys := keys b in
    if negb (Nat.eqb (length aKeys) (length bKeys)) then false
    else compare_keys a b aKeys.

End ShallowEqual.

(** ** [src/objects/equality.ts] *)

Module Equality.
Import Js.

(** [shallowEqual] of [equality.ts]: the same loop behind [a === b]. *)
Definition shallowEqual (a b : Object) : bool :=
  if same_object a b then true
  else
    let keysA := keys a in
    let keysB := keys b in
    if negb (Nat.eqb (length keysA) (length keysB)) then false
    else ShallowEqual.compare_keys a b keysA.

End Equality.

(** ** State maps *)

(** [ReporterStateMap]: a plain object used as a dictionary.  Every
    property of such an object is enumerable (it is built by object
    literals, spread and [Object.assign]). *)
Abbreviation StateMap := (gmap string Js.Value).

Module State.
Import Js.

(** [state[key]]: [undefined] for a key that is not present.  This is
    the read of the source for an own property and for every key that
    [inherited] rejects; under an inherited name that the state does not
    own, the source reads the member of [Object.prototype]. *)
Definition get (state : StateMap) (key : string) : Value :=
  match state !! key with
  | Some v => v
  | None => VUndefined
  end.

(** [Object.keys(state)]. *)
Definition keys (state : StateMap) : list string :=
  (map_to_list state).*1.

(** [Object.assign(target, source)]: every entry of [source] is written
    over [target].  This is the assignment of the source for every
    [source] that is [assignable]. *)
Definition assign (target source : StateMap) : StateMap :=
  source ∪ target.


(** No key of [delta] names a member of [Object.prototype]: under the
    keys of such a delta, [get] is the read of the source on every state
    map. *)
Definition own_names (delta : StateMap) : bool :=
  forallb (λ key, negb (inherited key)) (keys delta).

(** The plain object, of identity [ref], that holds the entries of a
    state map. *)
Definition to_object (ref : positive) (state : StateMap) : Object :=
  mkObject ref false ((λ v, mkProperty v true) <$> state).

(** [shallowEqual(a, b)] of [shallow-equal.ts] on two state maps held by
    two distinct plain objects, as every call of the reporter has it (the
    right-hand side is always a fresh copy). *)
Definition shallowEqual (a b : StateMap) : bool :=
  ShallowEqual.shallowEqual (to_object 1 a) (to_object 2 b).

(** Two state maps hold the same entries: the same keys, and values that
    [Object.is] does not tell apart. *)
Definition same_entries (a b : StateMap) : Prop :=
  dom a = dom b ∧ ∀ key, object_is (get a key) (get b key) = true.

End State.

(** ** [observability/metrics/operations.ts] *)

Module Operations.
Import Js.

(** [type Operation = (state) => Partial<Record<string, ReporterValue>>]. *)
Definition Operation : Type := StateMap → StateMap.

Definition set (key : string) (value : Value) : Operation :=
  λ state, {[ key := value ]}.

Definition add (key : string) (amount : float) : Operation :=
  λ state,
    let cur :=
      if String.eqb (typeof (State.get state key)) "number"
      then as_number (State.get state key)
      else 0%float in
    {[ key := VNumber (cur + amount)%float ]}.

Definition sub (key : string) (amount : float) : Operation :=
  λ state,
    let cur :=
      if String.eqb (typeof (State.get state key)) "number"
      then as_number (State.get state key)
      else 0%float in
    {[ key := VNumber (cur - amount)%float ]}.

End Operations.

(** ** The RxJS operators the reporter uses

    Every operator here is synchronous and keeps a bounded memory, so a
    stream is modelled by the list of the values it has delivered so far,
    oldest first, and an operator by a function from the values it
    received to the values it forwarded. *)

Module Rx.

Section Operators.
Context {A : Type}.

(** After [prev] was forwarded: drop the values [comparator] equates with
    the last forwarded one. *)
Fixpoint distinct_after (comparator : A → A → bool) (prev : A) (xs : list A)
  : list A :=
  match xs with
  | [] => []
  | x :: rest =>
      if comparator prev x then distinct_after comparator prev rest
      else x :: distinct_after comparator x rest
  end.

(** [distinctUntilChanged(comparator)]: the first value always passes. *)
Definition distinctUntilChanged (comparator : A → A → bool) (xs : list A)
  : list A :=
  match xs with
  | [] => []
  | x :: rest => x :: distinct_after comparator x rest
  end.

(** [startWith(value)]. *)
Definition startWith (value : A) (xs : list A) : list A := value :: xs.

Fixpoint pairs_after (prev : A) (xs : list A) : list (A * A) :=
  match xs with
  | [] => []
  | x :: rest => (prev, x) :: pairs_after x rest
  end.

(** [pairwise()]: from the second value on, the pair [previous, current]. *)
Definition pairwise (xs : list A) : list (A * A) :=
  match xs with
  | [] => []
  | x :: rest => pairs_after x rest
  end.

(** Every value of [xs] differs, for [comparator], from the one before
    it, [prev] being before the first. *)
Fixpoint changing (comparator : A → A → bool) (prev : A) (xs : list A) : Prop :=
  match xs with
  | [] => True
  | x :: rest => comparator prev x = false ∧ changing comparator x rest
  end.

End Operators.

(** [filter(predicate)] and [map(project)]. *)
Definition filter {A : Type} (predicate : A → bool) (xs : list A) : list A :=
  List.filter predicate xs.

Definition map {A B : Type} (project : A → B) (xs : list A) : list B :=
  List.map project xs.

End Rx.

(** ** [Reporter<T>]: the batching reporter *)

Module Reporter.
Import Js.

(** The private fields: [#state], and the value the [BehaviorSubject]
    [#subject] currently holds (what it replays to a new subscriber). *)
Record Reporter : Type := mkReporter {
  state : StateMap;
  subject : StateMap;
}.

(** What a method call leaves behind: the reporter, and the values it
    passed to [#subject.next], in order. *)
Definition Result : Type := (Reporter * list StateMap)%type.

(** An argument of [apply]: a raw delta or an [Operation]
    ([typeof item === "function"]). *)
Inductive Item : Type :=
| Delta (delta : StateMap)
| Op (operation : Operations.Operation).

(** [(state: T, key: string) => boolean]. *)
Definition Predicate : Type := StateMap → string → bool.

(** The options object of [transform].  Its declared type has [keep]
    only; a [drop] list is what the documentation and the test pass. *)
Record TransformOptions : Type := mkOptions {
  keep : option (list Predicate);
  drop : option (list Predicate);
}.

(** [constructor(initial?)]. *)
Definition constructor (initial : option StateMap) : Reporter :=
  let state := default ∅ initial in
  mkReporter state state.

(** [this.#state = next; this.#subject.next({ ...next })]. *)
Definition commit (next : StateMap) : Result :=
  (mkReporter next next, [next]).

(** One turn of the loop of [apply]: the delta of [item], computed on the
    working copy [next], is assigned to it. *)
Definition apply_item (next : StateMap) (item : Item) : StateMap :=
  let delta :=
    match item with
    | Op operation => operation next
    | Delta delta => delta
    end in
  State.assign next delta.


Definition apply (items : list Item) (this : Reporter) : Result :=
  let next := foldl apply_item (state this) items in
  if negb (State.shallowEqual (state this) next) then commit next
  else (this, []).

Definition set (key : string) (value : Value) (this : Reporter) : Result :=
  apply [Delta {[ key := value ]}] this.

Definition add (key : string) (amount : float) (this : Reporter) : Result :=
  apply [Op (Operations.add key amount)] this.

Definition sub (key : string) (amount : float) (this : Reporter) : Result :=
  apply [Op (Operations.sub key amount)] this.

(** [snapshot()]: a copy of the state. *)
Definition snapshot (this : Reporter) : StateMap := state this.

(** One turn of the loop of [prune], on the pair [(next, removed)]. *)
Definition prune_key (this : Reporter) (predicates : list Predicate)
    (acc : StateMap * bool) (key : string) : StateMap * bool :=
  if forallb (λ fn, fn (state this) key) predicates
  then (<[ key := State.get (state this) key ]> acc.1, acc.2)
  else (acc.1, true).

Definition prune (predicates : list Predicate) (this : Reporter) : Result :=
  let '(next, removed) :=
    foldl (prune_key this predicates) (∅, false) (State.keys (state this)) in
  if removed && negb (State.shallowEqual (state this) next) then commit next
  else (this, []).

(** One turn of the loop of [transform]; [passesDrop] reads
    [options.keep], as the source does. *)
Definition transform_key (this : Reporter) (options : TransformOptions)
    (acc : StateMap * bool) (key : string) : StateMap * bool :=
  let passesKeep :=
    match keep options with
    | None => true
    | Some fns => existsb (λ fn, fn (state this) key) fns
    end in
  let passesDrop :=
    match keep options with
    | None => false
    | Some fns => existsb (λ fn, fn (state this) key) fns
    end in
  if passesKeep && negb passesDrop
  then (<[ key := State.get (state this) key ]> acc.1, acc.2)
  else (acc.1, true).

Definition transform (options : TransformOptions) (this : Reporter) : Result :=
  let '(next, removed) :=
    foldl (transform_key this options) (state this, false)
      (State.keys (state this)) in
  if removed && negb (State.shallowEqual (state this) next) then commit next
  else (this, []).




(** A stream derived from [#subject]: what a subscriber receives, given
    what the subject delivers to that subscription.  The subject is a
    [BehaviorSubject]: it delivers the value it holds at the time of the
    subscription, then every value passed to [next] afterwards. *)
Definition Observable : Type := list StateMap → list StateMap.

(** [metrics$ = #subject.asObservable().pipe(distinctUntilChanged(shallowEqual))]. *)
Definition metrics : Observable :=
  Rx.distinctUntilChanged State.shallowEqual.

(** The predicate of the [filter] in [watch]. *)
Definition watched_key_changed (keys : list string)
    (pair : StateMap * StateMap) : bool :=
  let '(prev, curr) := pair in
  existsb (λ k, negb (object_is (State.get prev k) (State.get curr k))) keys.

(** [watch(...keys)].  [this.snapshot()] is an argument of [startWith]: it
    is evaluated when [watch] is called, not when the stream it returns
    is subscribed to. *)
Definition watch (keys : list string) (this : Reporter) : Observable :=
  let initial := snapshot this in
  λ delivered,
    Rx.map snd
      (Rx.filter (watched_key_changed keys)
         (Rx.pairwise (Rx.startWith initial (metrics delivered)))).

(** *** Sequences of calls and subscriptions *)

(** A call of one of the mutating methods. *)
Inductive Call : Type :=
| CallApply (items : list Item)
| CallSet (key : string) (value : Value)
| CallAdd (key : string) (amount : float)
| CallSub (key : string) (amount : float)
| CallPrune (predicates : list Predicate)
| CallTransform (options : TransformOptions).

Definition call (c : Call) (this : Reporter) : Result :=
  match c with
  | CallApply items => apply items this
  | CallSet key value => set key value this
  | CallAdd key amount => add key amount this
  | CallSub key amount => sub key amount this
  | CallPrune predicates => prune predicates this
  | CallTransform options => transform options this
  end.

(** Calls made one after the other, and all they passed to the subject. *)
Fixpoint run (calls : list Call) (this : Reporter) : Result :=
  match calls with
  | [] => (this, [])
  | c :: rest =>
      let '(this1, emitted1) := call c this in
      let '(this2, emitted2) := run rest this1 in
      (this2, emitted1 ++ emitted2)
  end.

(** What a subscriber of [stream] has received when it subscribed while
    the reporter was [this] and the subject was since passed [later]. *)
Definition subscribe (stream : Observable) (this : Reporter)
    (later : list StateMap) : list StateMap :=
  stream (subject this :: later).

(** What a subscriber of [stream], subscribed while the reporter was
    [this], has received once [calls] were made. *)
Definition received (stream : Observable) (this : Reporter)
    (calls : list Call) : list StateMap :=
  subscribe stream this (run calls this).2.

(** The subject holds a copy of the state: true of a new reporter and
    kept by every method. *)
Definition consistent (this : Reporter) : Prop :=
  subject this = state this.

End Reporter.

(** ** The earlier [Reporter]: [add] and [sub] throw *)

Module ThrowingReporter.
Import Js.

(** The private field [#state]; [#subject] is a plain [Subject], which
    holds no value. *)
Record Reporter : Type := mkReporter {
  state : StateMap;
}.

Inductive Error : Type :=
| TypeError (message : string).

(** How a call completes. *)
Inductive Completion : Type :=
| Normal
| Throw (error : Error).

(** What a method call leaves behind: how it completed, the reporter, and
    the values it passed to [#subject.next], in order. *)
Definition Result : Type := (Completion * Reporter * list StateMap)%type.

Definition constructor (initial : option StateMap) : Reporter :=
  mkReporter (default ∅ initial).

(** One turn of [for (const key in delta)], on [(current, changed)]. *)
Definition apply_key (this : Reporter) (delta : StateMap)
    (acc : StateMap * bool) (key : string) : StateMap * bool :=
  if negb (object_is (State.get delta key) (State.get (state this) key))
  then (<[ key := State.get delta key ]> acc.1, true)
  else acc.

Definition apply (delta : StateMap) (this : Reporter) : Result :=
  let '(current, changed) :=
    foldl (apply_key this delta) (state this, false) (State.keys delta) in
  if changed then (Normal, mkReporter current, [current])
  else (Normal, this, []).

Definition set (key : string) (value : Value) (this : Reporter) : Result :=
  apply {[ key := value ]} this.

(** The message of the error: a template literal. *)
Definition not_a_number (key : string) (v : Value) : Error :=
  TypeError ("key " +:+ key +:+ " is not a number, is " +:+ typeof v).

Definition add (key : string) (value : float) (this : Reporter) : Result :=
  if negb (to_boolean (State.get (state this) key)) then set key (VNumber value) this
  else if String.eqb (typeof (State.get (state this) key)) "number" then
    let next := (as_number (State.get (state this) key) + value)%float in
    apply {[ key := VNumber next ]} this
  else (Throw (not_a_number key (State.get (state this) key)), this, []).

Definition sub (key : string) (value : float) (this : Reporter) : Result :=
  if negb (to_boolean (State.get (state this) key)) then set key (VNumber value) this
  else if String.eqb (typeof (State.get (state this) key)) "number" then
    let next := (as_number (State.get (state this) key) - value)%float in
    apply {[ key := VNumber next ]} this
  else (Throw (not_a_number key (State.get (state this) key)), this, []).

Definition snapshot (this : Reporter) : StateMap := state this.

End ThrowingReporter.

(** ** The documented contracts, in the words of the specification *)

Module Contract.
Import Js.

(** The enumerable own-key set of an object. *)
Definition enumerable_keys (o : Object) : gset string :=
  dom (filter (λ kp, prop_enumerable kp.2 = true) (obj_props o)).

(** "[a] and [b] have identical enumerable own-key sets and every paired
    value is identical" under [Object.is]. *)
Definition shallow_equal (a b : Object) : Prop :=
  enumerable_keys a = enumerable_keys b
  ∧ ∀ key, key ∈ enumerable_keys a → object_is (get a key) (get b key) = true.

(** No enumerable key of [a] is a non-enumerable own property of [b]. *)
Definition no_hidden_twin (a b : Object) : Prop :=
  ∀ key, key ∈ keys a → hasOwn b key = true → key ∈ keys b.

(** "A key is retained iff: (no [keep] list is given, OR at least one
    [keep] predicate passes) AND (no [drop] predicate passes)." *)
Definition transform_retains (options : Reporter.TransformOptions)
    (state : StateMap) (key : string) : bool :=
  match Reporter.keep options with
  | None => true
  | Some fns => existsb (λ fn, fn state key) fns
  end
  && negb
       match Reporter.drop options with
       | None => false
       | Some fns => existsb (λ fn, fn state key) fns
       end.

(** The state that [transform] is documented to leave. *)
Definition transform_result (options : Reporter.TransformOptions)
    (state : StateMap) : StateMap :=
  filter (λ kv, transform_retains options state kv.1 = true) state.

(** "A key survives iff every predicate returns true for it." *)
Definition prune_result (predicates : list Reporter.Predicate)
    (state : StateMap) : StateMap :=
  filter (λ kv, forallb (λ fn, fn state kv.1) predicates = true) state.

End Contract.

(** ** The scenarios of the specification and of the tests *)

Module Scenario.
Import Js.

(** State [{ foo: 10 }] and the batch [add("foo", 1), add("foo", 2),
    sub("foo", 1)]. *)
Definition foo_10 : StateMap := {[ "foo" := VNumber 10 ]}.


(** State [{ foo: 10, bar: 5, stage: "initial" }] and three batches whose
    net effect is the identity. *)
Definition foo_bar_stage : StateMap :=
  {[ "foo" := VNumber 10; "bar" := VNumber 5; "stage" := VString "initial" ]}.

Definition same_same_same : list Reporter.Item :=
  [Reporter.Op (Operations.set "foo" (VNumber 10));
   Reporter.Delta {[ "bar" := VNumber 5 ]};
   Reporter.Op (Operations.sub "bar" 0)].

Definition set_then_set_back : list Reporter.Item :=
  [Reporter.Op (Operations.set "foo" (VNumber 99));
   Reporter.Delta {[ "foo" := VNumber 10 ]}].

Definition add_then_sub : list Reporter.Item :=
  [Reporter.Op (Operations.add "foo" 1); Reporter.Op (Operations.sub "foo" 1)].

(** State [{ status: "ready" }], and the same with an empty string. *)
Definition status_ready : StateMap := {[ "status" := VString "ready" ]}.

Definition status_empty : StateMap := {[ "status" := VString EmptyString ]}.

(** State [{ a: 1, b: 2, c: 3 }] and the calls of the [watch] test. *)
Definition a_b_c : StateMap :=
  {[ "a" := VNumber 1; "b" := VNumber 2; "c" := VNumber 3 ]}.

Definition set_b : Reporter.Call := Reporter.CallSet "b" (VNumber 20).

Definition set_a : Reporter.Call := Reporter.CallSet "a" (VNumber 5).

Definition change_a_b_c : Reporter.Call :=
  Reporter.CallApply
    [Reporter.Op (Operations.add "a" 2);
     Reporter.Op (Operations.set "b" (VNumber 100));
     Reporter.Op (Operations.set "c" (VNumber 10))].

(** State [{ foo: 1, bar: 2, baz: 3, qux: 4 }] and the predicates
    [(s, k) => k !== "foo"], [(s, k) => k !== "bar"] and [() => true]. *)
Definition foo_bar_baz_qux : StateMap :=
  {[ "foo" := VNumber 1; "bar" := VNumber 2;
     "baz" := VNumber 3; "qux" := VNumber 4 ]}.

Definition not_foo : Reporter.Predicate := λ s k, negb (String.eqb k "foo").

Definition not_bar : Reporter.Predicate := λ s k, negb (String.eqb k "bar").


(** The test of [transform]: state [{ foo: 1, bar: "x", temp_id: "abc",
    debug: true, status: "ok" }], [keep] the numbers, [drop] the keys
    that start with "temp_" and the key "debug". *)
Definition mixed : StateMap :=
  {[ "foo" := VNumber 1; "bar" := VString "x"; "temp_id" := VString "abc";
     "debug" := VBoolean true; "status" := VString "ok" ]}.

Definition keep_numbers_drop_temp_debug : Reporter.TransformOptions :=
  Reporter.mkOptions
    (Some [λ s k, String.eqb (typeof (State.get s k)) "number"])
    (Some [λ s k, String.prefix "temp_" k; λ s k, String.eqb k "debug"]).

(** [a = { x: 1 }], and [b = { y: 2 }] with a non-enumerable own property
    [x] of value [1], as [Object.defineProperty(b, "x", { value: 1 })]
    makes it. *)
Definition only_x : Object :=
  mkObject 1 false {[ "x" := mkProperty (VNumber 1) true ]}.

Definition y_and_hidden_x : Object :=
  mkObject 2 false
    {[ "y" := mkProperty (VNumber 2) true; "x" := mkProperty (VNumber 1) false ]}.

End Scenario.

(** ** [MetricsReporter]: the reporter that also publishes changes *)

Module MetricsReporter.
Import Js.

(** The private fields [#state] and, for the [BehaviorSubject]
    [#subject], the value it holds. *)
Record MetricsReporter : Type := mkReporter {
  state : StateMap;
  subject : StateMap;
}.

(** [interface MetricsChange]. *)
Record MetricsChange : Type := mkChange {
  key : string;
  before : Value;
  after : Value;
}.


(** A value on its way from the subject to a subscriber, with what
    [#state] is at that instant: the callback of [updates$] reads the
    field when it is called. *)
Record Delivery : Type := mkDelivery {
  state_then : StateMap;
  value : StateMap;
}.

Definition Result : Type := (MetricsReporter * list Delivery)%type.

Definition constructor (initial : option StateMap) : MetricsReporter :=
  let state := default ∅ initial in
  mkReporter state state.

(** [#getChanges(next)], with [prev], the [#state] it reads, made
    explicit.  The records come in the order of [Object.keys(next)],
    which a state map does not fix. *)
Definition getChanges (prev next : StateMap) : list MetricsChange :=
  foldl
    (λ changes key,
       if negb (object_is (State.get prev key) (State.get next key))
       then changes ++ [mkChange key (State.get prev key) (State.get next key)]
       else changes)
    [] (State.keys next).

(** One turn of [for (const key in delta)] in [capture], on
    [(next, changed)]. *)
Definition capture_key (this : MetricsReporter) (delta : StateMap)
    (acc : StateMap * bool) (key : string) : StateMap * bool :=
  if negb (object_is (State.get delta key) (State.get (state this) key))
  then (<[ key := State.get delta key ]> acc.1, true)
  else acc.

(** [capture(delta)]: [#state] is assigned before the subject is passed
    the copy, so the delivery is made under the new state. *)
Definition capture (delta : StateMap) (this : MetricsReporter) : Result :=
  let '(next, changed) :=
    foldl (capture_key this delta) (state this, false) (State.keys delta) in
  if changed then (mkReporter next next, [mkDelivery next next])
  else (this, []).

Definition snapshot (this : MetricsReporter) : StateMap := state this.

(** [shallowEqual] of [equality.ts] on the values of two deliveries,
    which are always two distinct copies. *)
Definition same_snapshot (previous current : Delivery) : bool :=
  Equality.shallowEqual (State.to_object 1 (value previous))
    (State.to_object 2 (value current)).

(** [metrics$]. *)
Definition metrics (delivered : list Delivery) : list Delivery :=
  Rx.distinctUntilChanged same_snapshot delivered.


(** Captures made one after the other, and what the subject delivered. *)
Fixpoint run (deltas : list StateMap) (this : MetricsReporter) : Result :=
  match deltas with
  | [] => (this, [])
  | delta :: rest =>
      let '(this1, delivered1) := capture delta this in
      let '(this2, delivered2) := run rest this1 in
      (this2, delivered1 ++ delivered2)
  end.


Definition consistent (this : MetricsReporter) : Prop :=
  subject this = state this.

End MetricsReporter.

(** ** [deepEqual] of [src/objects/equality.ts] *)

Module DeepEqual.
Import Js.

(** The values [deepEqual] tells apart: the primitives, functions, and
    the objects it has a case for.  An object carries its identity; an
    array is dense; a [Map] and a [Set] list their entries in insertion
    order; a plain object lists its own properties, each key once, with
    the [enumerable] attribute. *)
#[local] Unset Elimination Schemes.
Inductive Any : Type :=
| AString (s : string)
| ANumber (n : float)
| ABoolean (b : bool)
| ANull
| AUndefined
| AFunction (ref : positive)
| AArray (ref : positive) (items : list Any)
| AMap (ref : positive) (entries : list (Any * Any))
| ASet (ref : positive) (members : list Any)
| ADate (ref : positive) (time : float)
| AObject (ref : positive) (props : list (string * (bool * Any))).
#[local] Set Elimination Schemes.

Definition typeof (a : Any) : string :=
  match a with
  | AString _ => "string"
  | ANumber _ => "number"
  | ABoolean _ => "boolean"
  | AUndefined => "undefined"
  | AFunction _ => "function"
  | _ => "object"
  end.

(** [Object.prototype.toString.call(a)], for an object. *)
Definition toString (a : Any) : string :=
  match a with
  | AArray _ _ => "[object Array]"
  | AMap _ _ => "[object Map]"
  | ASet _ _ => "[object Set]"
  | ADate _ _ => "[object Date]"
  | AFunction _ => "[object Function]"
  | ANull => "[object Null]"
  | AUndefined => "[object Undefined]"
  | AString _ => "[object String]"
  | ANumber _ => "[object Number]"
  | ABoolean _ => "[object Boolean]"
  | AObject _ _ => "[object Object]"
  end.

(** The identity of an object or function. *)
Definition reference (a : Any) : option positive :=
  match a with
  | AFunction r | AArray r _ | AMap r _ | ASet r _ | ADate r _ | AObject r _ =>
      Some r
  | _ => None
  end.

Definition same_reference (a b : Any) : bool :=
  match reference a, reference b with
  | Some r, Some s => Pos.eqb r s
  | _, _ => false
  end.

(** [a === b]. *)
Definition strict_equals (a b : Any) : bool :=
  match a, b with
  | AString s, AString t => String.eqb s t
  | ANumber x, ANumber y => PrimFloat.eqb x y
  | ABoolean x, ABoolean y => Bool.eqb x y
  | ANull, ANull => true
  | AUndefined, AUndefined => true
  | _, _ => same_reference a b
  end.

(** [Object.is(a, b)]. *)
Definition object_is (a b : Any) : bool :=
  match a, b with
  | ANumber x, ANumber y => same_value x y
  | _, _ => strict_equals a b
  end.

(** SameValueZero, by which a [Map] finds a key and a [Set] a member. *)
Definition same_value_zero (a b : Any) : bool :=
  match a, b with
  | ANumber x, ANumber y =>
      PrimFloat.eqb x y || (PrimFloat.is_nan x && PrimFloat.is_nan y)
  | _, _ => strict_equals a b
  end.

(** [b.length] and [b[i]] of an array. *)
Definition length_of (b : Any) : nat :=
  match b with
  | AArray _ items => length items
  | _ => 0
  end.

Definition at_index (b : Any) (i : nat) : Any :=
  match b with
  | AArray _ items => nth i items AUndefined
  | _ => AUndefined
  end.

(** [b.size], [b.has(key)] and [b.get(key)] of a [Map] or a [Set]. *)
Definition size_of (b : Any) : nat :=
  match b with
  | AMap _ entries => length entries
  | ASet _ members => length members
  | _ => 0
  end.

Definition has (b : Any) (key : Any) : bool :=
  match b with
  | AMap _ entries => existsb (λ e, same_value_zero e.1 key) entries
  | ASet _ members => existsb (λ m, same_value_zero m key) members
  | _ => false
  end.

Definition map_get (b : Any) (key : Any) : Any :=
  match b with
  | AMap _ entries =>
      match List.find (λ e, same_value_zero e.1 key) entries with
      | Some e => e.2
      | None => AUndefined
      end
  | _ => AUndefined
  end.

(** [b.getTime()]. *)
Definition getTime (b : Any) : float :=
  match b with
  | ADate _ time => time
  | _ => PrimFloat.nan
  end.

(** The own properties of a plain object. *)
Definition props_of (b : Any) : list (string * (bool * Any)) :=
  match b with
  | AObject _ props => props
  | _ => []
  end.

(** [Object.keys(b)], [Object.hasOwn(b, key)] and [b[key]]. *)
Definition keys (b : Any) : list string :=
  (List.filter (λ p, p.2.1) (props_of b)).*1.

Definition hasOwn (b : Any) (key : string) : bool :=
  existsb (λ p, String.eqb p.1 key) (props_of b).

Definition get (b : Any) (key : string) : Any :=
  match List.find (λ p, String.eqb p.1 key) (props_of b) with
  | Some p => p.2.2
  | None => AUndefined
  end.

(** [deepEqual(a, b)].  Past the tests on [typeof] and on the class, [b]
    is an object of the class of [a]. *)
Fixpoint deepEqual (a b : Any) {struct a} : bool :=
  if strict_equals a b then true
  else if object_is a b then true
  else if negb (String.eqb (typeof a) (typeof b)) then false
  else if negb (String.eqb (typeof a) "object")
          || strict_equals a ANull || strict_equals b ANull then false
  else if negb (String.eqb (toString a) (toString b)) then false
  else
    match a with
    | AArray _ items =>
        if negb (Nat.eqb (length items) (length_of b)) then false
        else
          (fix every (rest : list Any) (i : nat) {struct rest} : bool :=
             match rest with
             | [] => true
             | val :: rest' =>
                 if deepEqual val (at_index b i) then every rest' (S i)
                 else false
             end) items 0
    | AMap _ entries =>
        if negb (Nat.eqb (length entries) (size_of b)) then false
        else
          (fix each (rest : list (Any * Any)) {struct rest} : bool :=
             match rest with
             | [] => true
             | (key, val) :: rest' =>
                 if negb (has b key) || negb (deepEqual val (map_get b key))
                 then false
                 else each rest'
             end) entries
    | ASet _ members =>
        if negb (Nat.eqb (length members) (size_of b)) then false
        else
          (fix each (rest : list Any) {struct rest} : bool :=
             match rest with
             | [] => true
             | val :: rest' => if negb (has b val) then false else each rest'
             end) members
    | ADate _ time => PrimFloat.eqb time (getTime b)
    | AObject _ props =>
        if negb (Nat.eqb (length (keys a)) (length (keys b))) then false
        else
          (fix each (rest : list (string * (bool * Any))) {struct rest} : bool :=
             match rest with
             | [] => true
             | (key, (enumerable, val)) :: rest' =>
                 if enumerable then
                   if negb (hasOwn b key) then false
                   else if negb (deepEqual val (get b key)) then false
                   else each rest'
                 else each rest'
             end) props
    | _ => false
    end.

(** The loops of [deepEqual], each on what is left to visit. *)
Definition every_from (b : Any) : list Any → nat → bool :=
  fix every (rest : list Any) (i : nat) {struct rest} : bool :=
    match rest with
    | [] => true
    | val :: rest' =>
        if deepEqual val (at_index b i) then every rest' (S i) else false
    end.

Definition each_entry (b : Any) : list (Any * Any) → bool :=
  fix each (rest : list (Any * Any)) {struct rest} : bool :=
    match rest with
    | [] => true
    | (key, val) :: rest' =>
        if negb (has b key) || negb (deepEqual val (map_get b key)) then false
        else each rest'
    end.

Definition each_member (b : Any) : list Any → bool :=
  fix each (rest : list Any) {struct rest} : bool :=
    match rest with
    | [] => true
    | val :: rest' => if negb (has b val) then false else each rest'
    end.

Definition each_prop (b : Any) : list (string * (bool * Any)) → bool :=
  fix each (rest : list (string * (bool * Any))) {struct rest} : bool :=
    match rest with
    | [] => true
    | (key, (enumerable, val)) :: rest' =>
        if enumerable then
          if negb (hasOwn b key) then false
          else if negb (deepEqual val (get b key)) then false
          else each rest'
        else each rest'
    end.

(** A primitive value: neither an object nor a function. *)
Definition is_primitive (a : Any) : bool :=
  match reference a with
  | None => true
  | Some _ => false
  end.

(** The same data held by other objects: every identity [r] becomes
    [rename r]. *)
Fixpoint renamed (rename : positive → positive) (a : Any) : Any :=
  match a with
  | AFunction r => AFunction (rename r)
  | AArray r items => AArray (rename r) (List.map (renamed rename) items)
  | AMap r entries =>
      AMap (rename r)
        (List.map (λ e, (renamed rename e.1, renamed rename e.2)) entries)
  | ASet r members => ASet (rename r) (List.map (renamed rename) members)
  | ADate r time => ADate (rename r) time
  | AObject r props =>
      AObject (rename r)
        (List.map (λ p, (p.1, (p.2.1, renamed rename p.2.2))) props)
  | _ => a
  end.

(** The keys of a [Map] are distinct for SameValueZero, as a [Map] keeps
    them. *)
Definition distinct_keys (entries : list (Any * Any)) : Prop :=
  ∀ i j e1 e2,
    entries !! i = Some e1 → entries !! j = Some e2 →
    same_value_zero e1.1 e2.1 = true → i = j.

(** Plain data: primitives, dates that hold a time, arrays and plain
    objects of plain data, and sets and maps keyed by primitives. *)
Fixpoint plain (a : Any) : Prop :=
  match a with
  | AFunction _ => False
  | AArray _ items =>
      (fix all (l : list Any) : Prop :=
         match l with
         | [] => True
         | x :: l' => plain x ∧ all l'
         end) items
  | AMap _ entries =>
      distinct_keys entries
      ∧ (fix all (l : list (Any * Any)) : Prop :=
           match l with
           | [] => True
           | e :: l' => (is_primitive e.1 = true ∧ plain e.2) ∧ all l'
           end) entries
  | ASet _ members => Forall (λ m, is_primitive m = true) members
  | ADate _ time => PrimFloat.is_nan time = false
  | AObject _ props =>
      NoDup props.*1
      ∧ (fix all (l : list (string * (bool * Any))) : Prop :=
           match l with
           | [] => True
           | p :: l' => plain p.2.2 ∧ all l'
           end) props
  | _ => True
  end.

End DeepEqual.
(** The values of the examples of [deepEqual]. *)
Module DeepScenario.
Import DeepEqual.

(** [{ a: { b: [1, 2] }, c: new Date('2024-01-01') }]. *)
Definition a_b_c : Any :=
  AObject 1
    [("a", (true, AObject 2 [("b", (true, AArray 3 [ANumber 1; ANumber 2]))]));
     ("c", (true, ADate 4 1704067200000))].

(** The identities of a second evaluation of the same expression. *)
Definition again (r : positive) : positive := (r + 4)%positive.

(** [{ a: 1 }], and [new Set([{ a: 1 }])] twice. *)
Definition a_1 (r : positive) : Any := AObject r [("a", (true, ANumber 1))].

Definition set_of_a_1 : Any := ASet 1 [a_1 2].

Definition set_of_a_1_again : Any := ASet 3 [a_1 4].

End DeepScenario.


(** ** Values and [Object.is] *)

Lemma spec_float_same_refl (x : spec_float) : Js.spec_float_same x x = true.
Proof.
  destruct x as [s | s | | s m e]; simpl; trivial.
  - by destruct s.
  - by destruct s.
  - rewrite Pos.eqb_refl, Z.eqb_refl. by destruct s.
Qed.

Lemma object_is_refl (v : Js.Value) : Js.object_is v v = true.
Proof.
  destruct v; simpl; trivial.
  - apply String.eqb_refl.
  - apply spec_float_same_refl.
  - by destruct b.
  - apply Pos.eqb_refl.
  - apply Pos.eqb_refl.
Qed.

(** [Object.is] tells [NaN] from nothing but itself, and the two zeros,
    [null] and [undefined] from one another. *)
Lemma object_is_distinctions :
  Js.object_is (Js.VNumber nan) (Js.VNumber nan) = true
  ∧ Js.object_is (Js.VNumber 0) (Js.VNumber (-0)) = false
  ∧ Js.object_is Js.VNull Js.VUndefined = false
  ∧ Js.object_is (Js.VNumber 0) Js.VNull = false
  ∧ Js.object_is (Js.VNumber 0) Js.VUndefined = false
  ∧ Js.object_is (Js.VNumber 1) (Js.VString "1") = false.
Proof. repeat split; reflexivity. Qed.

(** ** [shallowEqual] *)

Lemma compare_keys_true (a b : Js.Object) (ks : list string) :
  ShallowEqual.compare_keys a b ks = true
  ↔ ∀ key, key ∈ ks →
      Js.hasOwn b key = true
      ∧ Js.object_is (Js.get a key) (Js.get b key) = true.
Proof.
  induction ks as [| k ks IH]; simpl.
  - split; [intros _ key Hin; by apply elem_of_nil in Hin | done].
  - destruct (Js.hasOwn b k) eqn:Hown; simpl.
    + destruct (Js.object_is (Js.get a k) (Js.get b k)) eqn:His; simpl.
      * rewrite IH. split.
        -- intros H key Hin. apply elem_of_cons in Hin as [-> | Hin]; auto.
        -- intros H key Hin. apply H. by right.
      * split; [done |]. intros H.
        destruct (H k) as [_ H']; [by left | congruence].
    + split; [done |]. intros H.
      destruct (H k) as [H' _]; [by left | congruence].
Qed.

Lemma elem_of_keys (o : Js.Object) (key : string) :
  key ∈ Js.keys o
  ↔ ∃ p, Js.obj_props o !! key = Some p ∧ Js.prop_enumerable p = true.
Proof.
  unfold Js.keys. rewrite list_elem_of_fmap. split.
  - intros [[k p] [-> Hin]]. apply elem_of_map_to_list in Hin.
    apply map_lookup_filter_Some in Hin as [Hk Hp]. by exists p.
  - intros [p [Hk Hp]]. exists (key, p). split; [done |].
    apply elem_of_map_to_list. by apply map_lookup_filter_Some.
Qed.

Lemma elem_of_enumerable_keys (o : Js.Object) (key : string) :
  key ∈ Contract.enumerable_keys o ↔ key ∈ Js.keys o.
Proof.
  rewrite elem_of_keys. unfold Contract.enumerable_keys.
  rewrite elem_of_dom. unfold is_Some.
  split; intros [p H]; exists p; by apply map_lookup_filter_Some in H || apply map_lookup_filter_Some.
Qed.

Lemma length_keys (o : Js.Object) :
  length (Js.keys o) = size (Contract.enumerable_keys o).
Proof.
  unfold Js.keys, Contract.enumerable_keys.
  by rewrite length_fmap, length_map_to_list, size_dom.
Qed.

Lemma hasOwn_true (o : Js.Object) (key : string) :
  Js.hasOwn o key = true ↔ is_Some (Js.obj_props o !! key).
Proof. unfold Js.hasOwn. by rewrite bool_decide_eq_true. Qed.

Lemma keys_hasOwn (o : Js.Object) (key : string) :
  key ∈ Js.keys o → Js.hasOwn o key = true.
Proof.
  rewrite elem_of_keys, hasOwn_true. intros [p [H _]]. by exists p.
Qed.

(** What the body of [shallowEqual] decides for two objects whose
    [typeof] is "object". *)
Lemma shallowEqual_body (a b : Js.Object) :
  Js.obj_callable a = false → Js.obj_callable b = false →
  ShallowEqual.shallowEqual a b = true
  ↔ length (Js.keys a) = length (Js.keys b)
    ∧ ∀ key, key ∈ Js.keys a →
        Js.hasOwn b key = true
        ∧ Js.object_is (Js.get a key) (Js.get b key) = true.
Proof.
  intros Ha Hb. unfold ShallowEqual.shallowEqual, Js.typeof_object.
  rewrite Ha, Hb. simpl.
  destruct (Nat.eqb_spec (length (Js.keys a)) (length (Js.keys b))) as [Hlen | Hlen];
    simpl.
  - rewrite compare_keys_true. split; [by intros H; split | by intros [_ H]].
  - split; [done | by intros [H _]].
Qed.

(** The contract holds of [shallowEqual] on all pairs of plain objects
    where [b] hides no twin of a key of [a], and one direction holds of
    all pairs. *)
Lemma shallowEqual_contract (a b : Js.Object) :
  Js.obj_callable a = false → Js.obj_callable b = false →
  (Contract.shallow_equal a b → ShallowEqual.shallowEqual a b = true)
  ∧ (Contract.no_hidden_twin a b →
     ShallowEqual.shallowEqual a b = true → Contract.shallow_equal a b).
Proof.
  intros Ha Hb. rewrite (shallowEqual_body a b Ha Hb). split.
  - intros [Hkeys Hvals]. split.
    + by rewrite !length_keys, Hkeys.
    + intros key Hin. split.
      * apply keys_hasOwn. apply elem_of_enumerable_keys.
        rewrite <- Hkeys. by apply elem_of_enumerable_keys.
      * apply Hvals. by apply elem_of_enumerable_keys.
  - intros Hvis [Hlen Hall]. split.
    + apply set_subseteq_size_eq.
      * intros key Hin. apply elem_of_enumerable_keys in Hin.
        apply elem_of_enumerable_keys. apply Hvis; [done |].
        by apply Hall.
      * rewrite <- !length_keys. lia.
    + intros key Hin. apply Hall. by apply elem_of_enumerable_keys.
Qed.

(** *** On state maps *)

Lemma to_object_get (ref : positive) (m : StateMap) (key : string) :
  Js.get (State.to_object ref m) key = State.get m key.
Proof.
  unfold Js.get, State.get, State.to_object. simpl.
  rewrite lookup_fmap. by destruct (m !! key).
Qed.

Lemma to_object_keys (ref : positive) (m : StateMap) (key : string) :
  key ∈ Js.keys (State.to_object ref m) ↔ key ∈ dom m.
Proof.
  rewrite elem_of_keys, elem_of_dom. unfold State.to_object. simpl. split.
  - intros [p [H _]]. rewrite lookup_fmap in H.
    destruct (m !! key); [by eexists | done].
  - intros [v H]. exists (Js.mkProperty v true).
    by rewrite lookup_fmap, H.
Qed.

Lemma to_object_hasOwn (ref : positive) (m : StateMap) (key : string) :
  Js.hasOwn (State.to_object ref m) key = true ↔ key ∈ dom m.
Proof.
  rewrite hasOwn_true, elem_of_dom. unfold State.to_object. simpl.
  by rewrite lookup_fmap, fmap_is_Some.
Qed.

Lemma to_object_enumerable_keys (ref : positive) (m : StateMap) :
  Contract.enumerable_keys (State.to_object ref m) = dom m.
Proof.
  apply set_eq. intros key.
  by rewrite elem_of_enumerable_keys, to_object_keys.
Qed.

Lemma state_keys_dom (m : StateMap) (key : string) :
  key ∈ State.keys m ↔ key ∈ dom m.
Proof.
  unfold State.keys. rewrite list_elem_of_fmap, elem_of_dom. split.
  - intros [[k v] [-> H]]. apply elem_of_map_to_list in H. by exists v.
  - intros [v H]. exists (key, v). split; [done |].
    by apply elem_of_map_to_list.
Qed.

Lemma state_get_absent (m : StateMap) (key : string) :
  key ∉ dom m → State.get m key = Js.VUndefined.
Proof.
  intros H. apply not_elem_of_dom in H. unfold State.get. by rewrite H.
Qed.

(** The oracle on state maps: the same keys, and values [Object.is]
    does not tell apart. *)
Lemma state_shallowEqual_true (a b : StateMap) :
  State.shallowEqual a b = true ↔ State.same_entries a b.
Proof.
  unfold State.shallowEqual, State.same_entries.
  destruct (shallowEqual_contract (State.to_object 1 a) (State.to_object 2 b))
    as [Hto Hfrom]; [done | done |].
  unfold Contract.shallow_equal in *.
  rewrite !to_object_enumerable_keys in *. split.
  - intros H. apply Hfrom in H as [Hdom Hvals].
    + split; [done |]. intros key.
      destruct (decide (key ∈ dom a)) as [Hin | Hout].
      * specialize (Hvals key Hin). by rewrite !to_object_get in Hvals.
      * rewrite (state_get_absent a key Hout).
        rewrite (state_get_absent b key); [done |]. by rewrite <- Hdom.
    + intros key _. by rewrite to_object_keys, to_object_hasOwn.
  - intros [Hdom Hvals]. apply Hto. split; [done |].
    intros key _. by rewrite !to_object_get.
Qed.

Lemma state_shallowEqual_refl (a : StateMap) : State.shallowEqual a a = true.
Proof.
  apply state_shallowEqual_true. split; [done |].
  intros key. apply object_is_refl.
Qed.

Lemma state_shallowEqual_dom (a b : StateMap) :
  dom a ≠ dom b → State.shallowEqual a b = false.
Proof.
  intros Hne. apply not_true_is_false. intros H.
  apply state_shallowEqual_true in H as [Hdom _]. done.
Qed.

(** ** The batching reporter *)

(** *** [apply] *)

Lemma apply_unfold (items : list Reporter.Item) (this : Reporter.Reporter) :
  Reporter.apply items this
  = if State.shallowEqual (Reporter.state this)
         (foldl Reporter.apply_item (Reporter.state this) items)
    then (this, [])
    else Reporter.commit (foldl Reporter.apply_item (Reporter.state this) items).
Proof.
  unfold Reporter.apply.
  by destruct (State.shallowEqual _ _).
Qed.

Lemma assign_lookup (target source : StateMap) (key : string) :
  State.assign target source !! key
  = match source !! key with
    | Some v => Some v
    | None => target !! key
    end.
Proof.
  unfold State.assign. rewrite lookup_union.
  destruct (source !! key), (target !! key); done.
Qed.

Lemma assign_singleton (target : StateMap) (key : string) (v : Js.Value) :
  State.assign target {[ key := v ]} = <[ key := v ]> target.
Proof. unfold State.assign. by rewrite insert_union_singleton_l. Qed.

(** *** [transform] *)

Lemma transform_fold (this : Reporter.Reporter)
    (options : Reporter.TransformOptions) (ks : list string) (removed : bool) :
  (∀ key, key ∈ ks → key ∈ dom (Reporter.state this)) →
  (foldl (Reporter.transform_key this options)
     (Reporter.state this, removed) ks).1 = Reporter.state this.
Proof.
  revert removed. induction ks as [| k ks IH]; intros removed Hks; [done |].
  simpl. unfold Reporter.transform_key at 2. simpl.
  assert (Hk : <[ k := State.get (Reporter.state this) k ]> (Reporter.state this)
               = Reporter.state this).
  { apply insert_id. unfold State.get.
    destruct (Reporter.state this !! k) eqn:Hlk; [done |].
    apply not_elem_of_dom in Hlk. destruct Hlk. apply Hks. by left. }
  destruct (_ && _); rewrite ?Hk; apply IH; intros key Hin; apply Hks; by right.
Qed.

Lemma transform_identity (options : Reporter.TransformOptions)
    (this : Reporter.Reporter) :
  Reporter.transform options this = (this, []).
Proof.
  unfold Reporter.transform.
  pose proof (transform_fold this options (State.keys (Reporter.state this)) false) as H.
  destruct (foldl _ _ _) as [next removed]. simpl in H.
  rewrite H; [| intros key; by rewrite state_keys_dom].
  by rewrite state_shallowEqual_refl, andb_false_r.
Qed.

(** *** [prune] *)

(** Case analysis on whether every predicate accepts the key at hand. *)
Ltac case_every predicates H :=
  match goal with
  | |- context [forallb ?f predicates] => destruct (forallb f predicates) eqn:H
  end.

Lemma prune_fold (this : Reporter.Reporter) (predicates : list Reporter.Predicate)
    (ks : list string) (acc : StateMap) (removed : bool) :
  (∀ key, key ∈ ks → key ∈ dom (Reporter.state this)) →
  let passes key := forallb (λ fn, fn (Reporter.state this) key) predicates in
  let result := foldl (Reporter.prune_key this predicates) (acc, removed) ks in
  (∀ key, result.1 !! key
          = if bool_decide (key ∈ ks) && passes key
            then Reporter.state this !! key else acc !! key)
  ∧ result.2 = removed || existsb (λ key, negb (passes key)) ks.
Proof.
  intros Hks passes. revert acc removed.
  induction ks as [| k ks IH]; intros acc removed; simpl.
  - split; [done | by rewrite orb_false_r].
  - assert (Hk : Some (State.get (Reporter.state this) k) = Reporter.state this !! k).
    { unfold State.get. destruct (Reporter.state this !! k) eqn:Hlk; [done |].
      apply not_elem_of_dom in Hlk. destruct Hlk. apply Hks. by left. }
    assert (Hrest : ∀ key, key ∈ ks → key ∈ dom (Reporter.state this)).
    { intros key Hin. apply Hks. by right. }
    unfold Reporter.prune_key at 2 4. fold (passes k).
    destruct (passes k) eqn:Hpk; simpl;
      destruct (IH Hrest (if passes k then <[ k := State.get (Reporter.state this) k ]> acc else acc)
                  (if passes k then removed else true)) as [IH1 IH2];
      rewrite Hpk in IH1, IH2; split.
    + intros key. rewrite IH1.
      destruct (decide (key = k)) as [-> | Hne].
      * rewrite lookup_insert_eq, Hk, Hpk.
        rewrite (bool_decide_eq_true_2 (k ∈ k :: ks)); [| by left].
        by destruct (bool_decide (k ∈ ks)).
      * rewrite lookup_insert_ne; [| done].
        rewrite (bool_decide_ext (key ∈ k :: ks) (key ∈ ks)); [done |].
        rewrite elem_of_cons. split; [by intros [? | ?] | by right].
    + done.
    + intros key. rewrite IH1.
      destruct (decide (key = k)) as [-> | Hne].
      * rewrite Hpk, !andb_false_r. done.
      * rewrite (bool_decide_ext (key ∈ k :: ks) (key ∈ ks)); [done |].
        rewrite elem_of_cons. split; [by intros [? | ?] | by right].
    + rewrite IH2. by rewrite orb_true_r.
Qed.

Lemma prune_result_lookup (predicates : list Reporter.Predicate)
    (state : StateMap) (key : string) (v : Js.Value) :
  Contract.prune_result predicates state !! key = Some v
  ↔ state !! key = Some v ∧ forallb (λ fn, fn state key) predicates = true.
Proof. unfold Contract.prune_result. by rewrite map_lookup_filter_Some. Qed.

(** The loop of [prune] builds the surviving part of the state, and
    raises [removed] exactly when a key fails a predicate. *)
Lemma prune_loop (this : Reporter.Reporter) (predicates : list Reporter.Predicate) :
  foldl (Reporter.prune_key this predicates) (∅, false)
    (State.keys (Reporter.state this))
  = (Contract.prune_result predicates (Reporter.state this),
     existsb (λ key, negb (forallb (λ fn, fn (Reporter.state this) key) predicates))
       (State.keys (Reporter.state this))).
Proof.
  destruct (prune_fold this predicates (State.keys (Reporter.state this)) ∅ false)
    as [H1 H2]; [intros key; by rewrite state_keys_dom |].
  destruct (foldl _ _ _) as [next removed]. cbn [fst snd] in H1, H2.
  rewrite orb_false_l in H2. f_equal; [| done].
  apply map_eq. intros key. apply option_eq. intros v.
  rewrite prune_result_lookup, H1, lookup_empty.
  case_every predicates Hp; rewrite ?andb_false_r, ?andb_true_r.
  - case_bool_decide as Hin; cbn iota.
    + split; [by intros H | by intros [H _]].
    + split; [done |]. intros [H _]. destruct Hin.
      apply state_keys_dom, elem_of_dom. by exists v.
  - split; [done | by intros [_ H]].
Qed.

(** A key fails a predicate exactly when pruning removes a key. *)
Lemma prune_removed (predicates : list Reporter.Predicate) (state : StateMap) :
  existsb (λ key, negb (forallb (λ fn, fn state key) predicates)) (State.keys state)
  = true
  ↔ ∃ key, key ∈ dom state ∧ key ∉ dom (Contract.prune_result predicates state).
Proof.
  rewrite existsb_exists. split.
  - intros [key [Hin Hp]]. exists key.
    apply list_elem_of_In, state_keys_dom in Hin. split; [done |].
    rewrite elem_of_dom. intros [v Hv].
    apply prune_result_lookup in Hv as [_ Hv]. rewrite Hv in Hp. done.
  - intros [key [Hin Hout]]. exists key. split.
    + by apply list_elem_of_In, state_keys_dom.
    + cbn beta. case_every predicates Hp; [| done].
      destruct Hout. apply elem_of_dom in Hin as [v Hv].
      apply elem_of_dom. exists v. by apply prune_result_lookup.
Qed.

Lemma prune_unfold (predicates : list Reporter.Predicate) (this : Reporter.Reporter) :
  Reporter.prune predicates this
  = if existsb (λ key, negb (forallb (λ fn, fn (Reporter.state this) key) predicates))
         (State.keys (Reporter.state this))
    then Reporter.commit (Contract.prune_result predicates (Reporter.state this))
    else (this, []).
Proof.
  unfold Reporter.prune. rewrite prune_loop.
  destruct (existsb _ _) eqn:Hrem; [| done]. simpl.
  apply prune_removed in Hrem as [key [Hin Hout]].
  rewrite state_shallowEqual_dom; [done |].
  intros Hdom. apply Hout. by rewrite <- Hdom.
Qed.

(** ** Streams *)

Lemma distinct_after_changing {A : Type} (comparator : A → A → bool)
    (prev : A) (xs : list A) :
  Rx.changing comparator prev xs → Rx.distinct_after comparator prev xs = xs.
Proof.
  revert prev. induction xs as [| x xs IH]; intros prev; simpl; [done |].
  intros [Hx Hxs]. rewrite Hx. f_equal. by apply IH.
Qed.

Lemma last_cons_default {A : Type} (xs : list A) (x d : A) :
  List.last (x :: xs) d = List.last xs x.
Proof.
  revert x d. induction xs as [| y ys IH]; intros x d; [done |].
  change (List.last (x :: y :: ys) d) with (List.last (y :: ys) d).
  by rewrite (IH y d), (IH y x).
Qed.

Lemma changing_app {A : Type} (comparator : A → A → bool)
    (prev : A) (xs ys : list A) :
  Rx.changing comparator prev (xs ++ ys)
  ↔ Rx.changing comparator prev xs
    ∧ Rx.changing comparator (List.last xs prev) ys.
Proof.
  revert prev. induction xs as [| x xs IH]; intros prev.
  - simpl. split; [by intros H | by intros [_ H]].
  - change ((x :: xs) ++ ys) with (x :: (xs ++ ys)).
    rewrite last_cons_default. simpl Rx.changing. rewrite IH.
    split; [by intros [H1 [H2 H3]] | by intros [[H1 H2] H3]].
Qed.


(** *** What the methods pass to the subject *)

(** A call either leaves the reporter as it is and passes nothing to the
    subject, or commits a state that the oracle tells from the previous
    one. *)
Lemma call_cases (c : Reporter.Call) (this : Reporter.Reporter) :
  Reporter.call c this = (this, [])
  ∨ ∃ next, Reporter.call c this = Reporter.commit next
            ∧ State.shallowEqual (Reporter.state this) next = false.
Proof.
  assert (Happly : ∀ items,
    Reporter.apply items this = (this, [])
    ∨ ∃ next, Reporter.apply items this = Reporter.commit next
              ∧ State.shallowEqual (Reporter.state this) next = false).
  { intros items. rewrite apply_unfold.
    destruct (State.shallowEqual _ _) eqn:Heq; [by left | right].
    by eexists. }
  destruct c as [items | key value | key amount | key amount | predicates | options];
    simpl; try apply Happly.
  - rewrite prune_unfold. destruct (existsb _ _) eqn:Hrem; [right | by left].
    eexists. split; [done |].
    apply prune_removed in Hrem as [key [Hin Hout]].
    apply state_shallowEqual_dom. intros Hdom. apply Hout. by rewrite <- Hdom.
  - left. apply transform_identity.
Qed.

Lemma run_app (calls1 calls2 : list Reporter.Call) (this : Reporter.Reporter) :
  Reporter.run (calls1 ++ calls2) this
  = ((Reporter.run calls2 (Reporter.run calls1 this).1).1,
     (Reporter.run calls1 this).2
     ++ (Reporter.run calls2 (Reporter.run calls1 this).1).2).
Proof.
  revert this. induction calls1 as [| c calls1 IH]; intros this; simpl.
  - by destruct (Reporter.run calls2 this).
  - destruct (Reporter.call c this) as [this1 emitted1].
    rewrite IH.
    destruct (Reporter.run calls1 this1) as [this2 emitted2]. simpl.
    by rewrite app_assoc.
Qed.

Lemma run_single (c : Reporter.Call) (this : Reporter.Reporter) :
  Reporter.run [c] this = Reporter.call c this.
Proof.
  simpl. destruct (Reporter.call c this) as [this1 emitted1].
  by rewrite app_nil_r.
Qed.

(** Calls keep the subject a copy of the state; what they pass to the
    subject is a chain of real changes that ends at the final state. *)
Lemma run_invariant (calls : list Reporter.Call) (this : Reporter.Reporter) :
  Reporter.consistent this →
  Reporter.consistent (Reporter.run calls this).1
  ∧ Rx.changing State.shallowEqual (Reporter.subject this)
      (Reporter.run calls this).2
  ∧ List.last (Reporter.run calls this).2 (Reporter.subject this)
    = Reporter.state (Reporter.run calls this).1.
Proof.
  revert this. induction calls as [| c calls IH]; intros this Hthis; [done |].
  simpl.
  destruct (call_cases c this) as [Hc | [next [Hc Hne]]]; rewrite Hc.
  - destruct (IH this Hthis) as [H1 [H2 H3]].
    by destruct (Reporter.run calls this) as [this2 emitted2].
  - unfold Reporter.commit.
    destruct (IH (Reporter.mkReporter next next)) as [H1 [H2 H3]]; [done |].
    destruct (Reporter.run calls (Reporter.mkReporter next next))
      as [this2 emitted2].
    cbn [fst snd Reporter.subject] in *.
    split; [done |]. split.
    + change ([next] ++ emitted2) with (next :: emitted2). simpl.
      split; [| done]. by rewrite Hthis.
    + change ([next] ++ emitted2) with (next :: emitted2).
      by rewrite last_cons_default.
Qed.

Lemma constructor_consistent (initial : option StateMap) :
  Reporter.consistent (Reporter.constructor initial).
Proof. done. Qed.

(** After a subscription to [metrics$] of a consistent reporter, every
    value passed to the subject reaches the subscriber. *)
Lemma metrics_forwards_all (calls : list Reporter.Call) (this : Reporter.Reporter) :
  Reporter.consistent this →
  Reporter.received Reporter.metrics this calls
  = Reporter.subject this :: (Reporter.run calls this).2.
Proof.
  intros Hthis. unfold Reporter.received, Reporter.subscribe, Reporter.metrics.
  simpl. f_equal. apply distinct_after_changing.
  by apply run_invariant.
Qed.

(** ** The claims on [apply] *)

(** C1.  [apply] folds the batch into a working copy; it commits the
    copy and passes exactly one snapshot to the subject if and only if
    the oracle tells the copy from the committed state; otherwise it
    leaves the reporter as it is and emits nothing.  So a batch whose net
    effect is the identity (the copy holds the same entries as the state)
    emits nothing and leaves the state: the batch [set("foo", 10),
    { bar: 5 }, sub("bar", 0)] of the specification, a set followed by a
    set back, an add followed by the opposite sub.  A subscriber of
    [metrics$] receives exactly what the subject was passed. *)
Theorem apply_commits_iff_net_change (items : list Reporter.Item)
    (this : Reporter.Reporter) :
  let next := foldl Reporter.apply_item (Reporter.state this) items in
  (State.shallowEqual (Reporter.state this) next = false
   ↔ Reporter.apply items this = (Reporter.mkReporter next next, [next]))
  ∧ (State.shallowEqual (Reporter.state this) next = true
     ↔ Reporter.apply items this = (this, []))
  ∧ (State.same_entries (Reporter.state this) next →
     Reporter.apply items this = (this, []))
  ∧ (Reporter.consistent this →
     Reporter.received Reporter.metrics this [Reporter.CallApply items]
     = Reporter.subject this :: (Reporter.apply items this).2)
  ∧ (let initial := Reporter.constructor (Some Scenario.foo_bar_stage) in
     Reporter.apply Scenario.same_same_same initial = (initial, [])
     ∧ Reporter.apply Scenario.set_then_set_back initial = (initial, [])
     ∧ Reporter.apply Scenario.add_then_sub initial = (initial, [])).
Proof.
  intros next.
  assert (Hcases : Reporter.apply items this
                   = if State.shallowEqual (Reporter.state this) next
                     then (this, [])
                     else (Reporter.mkReporter next next, [next])).
  { apply apply_unfold. }
  split; [| split; [| split; [| split]]].
  - rewrite Hcases.
    destruct (State.shallowEqual (Reporter.state this) next);
      split; try done; intros H; by inversion H.
  - rewrite Hcases.
    destruct (State.shallowEqual (Reporter.state this) next);
      split; try done; intros H; by inversion H.
  - intros H. apply state_shallowEqual_true in H. by rewrite Hcases, H.
  - intros Hthis. rewrite metrics_forwards_all; [| done].
    by rewrite run_single.
  - by vm_compute.
Qed.

(** The batch [set("foo", 10), { bar: 5 }, sub("bar", 0)] on
    [{ foo: 10, bar: 5, stage: "initial" }] has the identity as net
    effect: nothing is emitted, and a subscriber of [metrics$] has only
    the snapshot replayed to it when it subscribed. *)
Lemma apply_identity_batch :
  let initial := Reporter.constructor (Some Scenario.foo_bar_stage) in
  Reporter.apply Scenario.same_same_same initial = (initial, [])
  ∧ Reporter.received Reporter.metrics initial
      [Reporter.CallApply Scenario.same_same_same]
    = [Scenario.foo_bar_stage].
Proof.
  pose proof (apply_commits_iff_net_change Scenario.same_same_same
                (Reporter.constructor (Some Scenario.foo_bar_stage)))
    as [_ [_ [Hidentity [Hmetrics _]]]].
  assert (Hsame : Reporter.apply Scenario.same_same_same
                    (Reporter.constructor (Some Scenario.foo_bar_stage))
                  = (Reporter.constructor (Some Scenario.foo_bar_stage), [])).
  { apply Hidentity. apply state_shallowEqual_true. vm_compute. reflexivity. }
  split; [exact Hsame |].
  rewrite Hmetrics; [| reflexivity].
  rewrite Hsame. reflexivity.
Defined.



(** ** The claims on the operations *)

(** Adding to zero gives the number back, but for the sign of a zero:
    [0 + (-0)] is [+0]. *)
Lemma zero_plus (amount : float) :
  Js.same_value (0 + amount) amount = true
  ∨ (Js.same_value amount (-0) = true ∧ Js.same_value (0 + amount) 0 = true).
Proof.
  unfold Js.same_value. rewrite add_spec.
  change (Prim2SF 0) with (S754_zero false).
  change (Prim2SF (-0)) with (S754_zero true).
  destruct (Prim2SF amount) as [[] | [] | | [] m e]; simpl; auto;
    left; by rewrite Pos.eqb_refl, Z.eqb_refl.
Qed.

(** C9.  Evaluated on a state, [add(key, amount)] returns the delta
    [{ key: current + amount }] when the value of [key] is a number, and
    the delta computed with zero in its place, [{ key: 0 + amount }],
    when the key is absent or holds another value; [0 + amount] is
    [amount] (for the amount [-0] it is [+0]).  [sub] does the same with
    subtraction.  Neither has an effect: the delta depends on nothing but
    the value of [key] in the state it is given. *)
Theorem add_sub_deltas (state : StateMap) (key : string) (amount : float) :
  (∀ current, State.get state key = Js.VNumber current →
     Operations.add key amount state = {[ key := Js.VNumber (current + amount) ]}
     ∧ Operations.sub key amount state = {[ key := Js.VNumber (current - amount) ]})
  ∧ (state !! key = None ∨ Js.typeof (State.get state key) ≠ "number" →
     Operations.add key amount state = {[ key := Js.VNumber (0 + amount) ]}
     ∧ Operations.sub key amount state = {[ key := Js.VNumber (0 - amount) ]})
  ∧ (Js.same_value (0 + amount) amount = true
     ∨ (Js.same_value amount (-0) = true
        ∧ Js.same_value (0 + amount) 0 = true))
  ∧ (∀ other, State.get other key = State.get state key →
       Operations.add key amount other = Operations.add key amount state
       ∧ Operations.sub key amount other = Operations.sub key amount state).
Proof.
  split; [| split; [| split]].
  - intros current Hcur. unfold Operations.add, Operations.sub.
    by rewrite Hcur.
  - intros Habsent.
    assert (Htype : String.eqb (Js.typeof (State.get state key)) "number" = false).
    { apply String.eqb_neq. destruct Habsent as [Hnone | Hne]; [| done].
      unfold State.get. by rewrite Hnone. }
    unfold Operations.add, Operations.sub. by rewrite Htype.
  - apply zero_plus.
  - intros other Hsame. unfold Operations.add, Operations.sub.
    by rewrite Hsame.
Qed.

(** On [{ foo: 10 }], [add("foo", 1)] gives [{ foo: 11 }] and
    [add("hits", 1)] gives [{ hits: 1 }]. *)
Lemma add_sub_deltas_at_foo_10 :
  Operations.add "foo" 1 Scenario.foo_10 = {[ "foo" := Js.VNumber 11 ]}
  ∧ Operations.sub "foo" 1 Scenario.foo_10 = {[ "foo" := Js.VNumber 9 ]}
  ∧ Operations.add "hits" 1 Scenario.foo_10 = {[ "hits" := Js.VNumber 1 ]}
  ∧ Operations.sub "hits" 1 Scenario.foo_10 = {[ "hits" := Js.VNumber (-1) ]}.
Proof.
  pose proof (add_sub_deltas Scenario.foo_10 "foo" 1) as [Hnum _].
  pose proof (add_sub_deltas Scenario.foo_10 "hits" 1) as [_ [Hmissing _]].
  destruct (Hnum 10%float) as [Hadd Hsub]; [reflexivity |].
  destruct Hmissing as [Hadd0 Hsub0]; [left; reflexivity |].
  split; [exact Hadd |]. split; [exact Hsub |].
  split; [exact Hadd0 | exact Hsub0].
Defined.

(** ** The claim on the type guard of [add] and [sub] *)

Lemma object_is_number_r (v : Js.Value) (n : float) :
  Js.typeof v ≠ "number" → Js.object_is v (Js.VNumber n) = false.
Proof. by destruct v. Qed.

(** Writing a number over a value that is not one is a change the oracle
    sees. *)
Lemma shallowEqual_overwritten (state : StateMap) (key : string) (n : float) :
  Js.typeof (State.get state key) ≠ "number" →
  State.shallowEqual state (<[ key := Js.VNumber n ]> state) = false.
Proof.
  intros Htype. apply not_true_is_false. intros Heq.
  apply state_shallowEqual_true in Heq as [_ Hvals].
  specialize (Hvals key). unfold State.get at 2 in Hvals.
  rewrite lookup_insert_eq in Hvals.
  by rewrite object_is_number_r in Hvals.
Qed.

(** C3, as amended.  In the earlier [Reporter], whose [add] and [sub]
    are documented to throw, a key whose value is truthy and not a number
    makes [add(key, amount)] and [sub(key, amount)] throw a [TypeError];
    the state is then as it was and the subject is passed nothing.  In
    the batching [Reporter<T>], [add] and [sub] never fail: they apply
    the free-standing operation, which writes [0 + amount] (or
    [0 - amount]) over a value that is not a number, and emit once. *)
Theorem add_sub_type_guard (key : string) (amount : float) (existing : Js.Value) :
  Js.typeof existing ≠ "number" →
  (∀ this : ThrowingReporter.Reporter,
     ThrowingReporter.state this !! key = Some existing →
     Js.to_boolean existing = true →
     ThrowingReporter.add key amount this
     = (ThrowingReporter.Throw (ThrowingReporter.not_a_number key existing),
        this, [])
     ∧ ThrowingReporter.sub key amount this
       = (ThrowingReporter.Throw (ThrowingReporter.not_a_number key existing),
          this, []))
  ∧ (∀ this : Reporter.Reporter,
       Reporter.state this !! key = Some existing →
       Reporter.add key amount this
       = Reporter.commit (<[ key := Js.VNumber (0 + amount) ]> (Reporter.state this))
       ∧ Reporter.sub key amount this
         = Reporter.commit (<[ key := Js.VNumber (0 - amount) ]> (Reporter.state this))).
Proof.
  intros Htype.
  assert (Hneq : String.eqb (Js.typeof existing) "number" = false)
    by by apply String.eqb_neq.
  split.
  - intros this Hkey Htruthy.
    assert (Hget : State.get (ThrowingReporter.state this) key = existing).
    { unfold State.get. by rewrite Hkey. }
    unfold ThrowingReporter.add, ThrowingReporter.sub.
    by rewrite Hget, Htruthy, Hneq.
  - intros this Hkey.
    assert (Hget : State.get (Reporter.state this) key = existing).
    { unfold State.get. by rewrite Hkey. }
    unfold Reporter.add, Reporter.sub. rewrite !apply_unfold. simpl.
    unfold Reporter.apply_item, Operations.add, Operations.sub.
    rewrite Hget, Hneq, !assign_singleton.
    rewrite !shallowEqual_overwritten; [done | by rewrite Hget ..].
Qed.

(** From [{ status: "ready" }], [add("status", 1)] throws in the earlier
    reporter and leaves the snapshot; the batching reporter overwrites
    the status. *)
Lemma add_sub_type_guard_at_status_ready :
  let earlier := ThrowingReporter.constructor (Some Scenario.status_ready) in
  ThrowingReporter.add "status" 1 earlier
  = (ThrowingReporter.Throw
       (ThrowingReporter.TypeError "key status is not a number, is string"),
     earlier, [])
  ∧ ThrowingReporter.snapshot earlier = Scenario.status_ready
  ∧ Reporter.add "status" 1 (Reporter.constructor (Some Scenario.status_ready))
    = Reporter.commit {[ "status" := Js.VNumber 1 ]}.
Proof.
  assert (Htype : Js.typeof (Js.VString "ready") ≠ "number") by discriminate.
  pose proof (add_sub_type_guard "status" 1 (Js.VString "ready") Htype)
    as [Hthrows Hbatching].
  destruct (Hthrows (ThrowingReporter.constructor (Some Scenario.status_ready)))
    as [Hadd _]; [reflexivity | reflexivity |].
  destruct (Hbatching (Reporter.constructor (Some Scenario.status_ready)))
    as [Hadd' _]; [reflexivity |].
  split; [exact Hadd |]. split; [reflexivity |].
  rewrite Hadd'. by vm_compute.
Defined.

(** C3, as stated, fails: from [{ status: "ready" }] the batching
    reporter's [add("status", 1)] does not fail and changes the state;
    and the earlier reporter's does not fail either when the value is
    present, not a number and falsy, as the empty string is. *)
Lemma add_on_non_number_can_succeed :
  Reporter.add "status" 1 (Reporter.constructor (Some Scenario.status_ready))
  = (Reporter.mkReporter {[ "status" := Js.VNumber 1 ]}
       {[ "status" := Js.VNumber 1 ]},
     [ {[ "status" := Js.VNumber 1 ]} ])
  ∧ ThrowingReporter.add "status" 1
      (ThrowingReporter.constructor (Some Scenario.status_empty))
    = (ThrowingReporter.Normal,
       ThrowingReporter.mkReporter {[ "status" := Js.VNumber 1 ]},
       [ {[ "status" := Js.VNumber 1 ]} ]).
Proof. split; by vm_compute. Qed.

(** ** The claims on [transform] and [prune] *)

(** C5.  [transform] is the identity: whatever the state and the
    options, it leaves the reporter as it is, removes no key and passes
    nothing to the subject; a sequence of calls goes the same way with a
    [transform] in it or without. *)
Theorem transform_is_identity (options : Reporter.TransformOptions)
    (this : Reporter.Reporter) (before after : list Reporter.Call) :
  Reporter.transform options this = (this, [])
  ∧ Reporter.snapshot (Reporter.transform options this).1 = Reporter.snapshot this
  ∧ Reporter.run (before ++ Reporter.CallTransform options :: after) this
    = Reporter.run (before ++ after) this.
Proof.
  split; [apply transform_identity |].
  split; [by rewrite transform_identity |].
  change (Reporter.CallTransform options :: after)
    with ([Reporter.CallTransform options] ++ after).
  rewrite !run_app, run_single. cbn [Reporter.call].
  by rewrite transform_identity.
Qed.

(** C4, where the code departs from it.  On the state of the test,
    [{ foo: 1, bar: "x", temp_id: "abc", debug: true, status: "ok" }],
    keeping the numbers and dropping "temp_..." and "debug" should retain
    [foo] alone and emit; [transform] retains the five keys and emits
    nothing. *)
Theorem transform_keeps_every_key_of_the_test :
  let this :=
    (Reporter.apply [Reporter.Delta Scenario.mixed] (Reporter.constructor None)).1 in
  let options := Scenario.keep_numbers_drop_temp_debug in
  Reporter.snapshot this = Scenario.mixed
  ∧ Contract.transform_result options Scenario.mixed = {[ "foo" := Js.VNumber 1 ]}
  ∧ Reporter.transform options this = (this, [])
  ∧ Reporter.snapshot (Reporter.transform options this).1 = Scenario.mixed
  ∧ dom Scenario.mixed = {[ "foo"; "bar"; "temp_id"; "debug"; "status" ]}.
Proof.
  intros this options.
  assert (Hthis : Reporter.snapshot this = Scenario.mixed) by by vm_compute.
  split; [done |]. split; [by vm_compute |].
  split; [apply transform_identity |].
  split; [by rewrite transform_identity |].
  by vm_compute.
Qed.


(** ** The claims on [watch] *)


(** What a subscriber of a [watch] stream has received: the pairs that
    pass the filter, among the pair of the snapshot taken by [watch] with
    the value replayed at the subscription, and the pairs of consecutive
    values passed to the subject since. *)
Lemma watch_received (keys : list string) (this0 this1 : Reporter.Reporter)
    (calls : list Reporter.Call) :
  Reporter.consistent this1 →
  Reporter.received (Reporter.watch keys this0) this1 calls
  = Rx.map snd
      (Rx.filter (Reporter.watched_key_changed keys)
         ((Reporter.snapshot this0, Reporter.subject this1)
          :: Rx.pairs_after (Reporter.subject this1) (Reporter.run calls this1).2)).
Proof.
  intros Hthis1.
  unfold Reporter.received, Reporter.subscribe, Reporter.watch.
  pose proof (metrics_forwards_all calls this1 Hthis1) as Hmetrics.
  unfold Reporter.received, Reporter.subscribe in Hmetrics.
  by rewrite Hmetrics.
Qed.





(** C10, where the code departs from it.  With no key to watch, the
    stream of [watch()] is not the broadcast stream: it forwards nothing,
    whatever the subject delivers.  On [{ a: 1, b: 2, c: 3 }], after
    [set("a", 5)], a subscriber of [metrics$] has received the replayed
    snapshot and the new one, and a subscriber of [watch()] nothing. *)
Theorem watch_nothing_is_silent (this : Reporter.Reporter)
    (delivered : list StateMap) (at_subscription : Reporter.Reporter)
    (calls : list Reporter.Call) :
  Reporter.watch [] this delivered = []
  ∧ Reporter.received (Reporter.watch [] this) at_subscription calls = []
  ∧ (let initial := Reporter.constructor (Some Scenario.a_b_c) in
     Reporter.received Reporter.metrics initial [Scenario.set_a]
     = [Scenario.a_b_c; <[ "a" := Js.VNumber 5 ]> Scenario.a_b_c]
     ∧ Reporter.received (Reporter.watch [] initial) initial [Scenario.set_a]
       = []).
Proof.
  assert (Hsilent : ∀ values, Reporter.watch [] this values = []).
  { intros values. unfold Reporter.watch, Rx.map, Rx.filter.
    generalize (Rx.pairwise (Rx.startWith (Reporter.snapshot this)
                               (Reporter.metrics values))).
    intros pairs. induction pairs as [| [prev curr] pairs IH]; [done |].
    simpl. apply IH. }
  split; [apply Hsilent |]. split.
  - unfold Reporter.received, Reporter.subscribe. apply Hsilent.
  - split; by vm_compute.
Qed.

(** ** The claim on [shallowEqual] *)

(** C8, where the code departs from it.  [a = { x: 1 }] and [b], which
    has the enumerable key [y] and a non-enumerable own property [x] of
    value [1], have different enumerable own-key sets, [{x}] and [{y}];
    both [shallowEqual] return [true] on them: the hidden property of
    [b] is not ignored. *)
Theorem shallowEqual_sees_hidden_property :
  Contract.enumerable_keys Scenario.only_x = {[ "x" ]}
  ∧ Contract.enumerable_keys Scenario.y_and_hidden_x = {[ "y" ]}
  ∧ ¬ Contract.shallow_equal Scenario.only_x Scenario.y_and_hidden_x
  ∧ ShallowEqual.shallowEqual Scenario.only_x Scenario.y_and_hidden_x = true
  ∧ Equality.shallowEqual Scenario.only_x Scenario.y_and_hidden_x = true.
Proof.
  assert (Ha : Contract.enumerable_keys Scenario.only_x = {[ "x" ]})
    by by vm_compute.
  assert (Hb : Contract.enumerable_keys Scenario.y_and_hidden_x = {[ "y" ]})
    by by vm_compute.
  split; [done |]. split; [done |]. split; [| split; by vm_compute].
  intros [Hkeys _]. rewrite Ha, Hb in Hkeys.
  assert (Hx : "x" ∈ ({[ "y" ]} : gset string)) by (rewrite <- Hkeys; set_solver).
  apply elem_of_singleton in Hx. discriminate.
Qed.

(** * Further properties of the code *)

(** ** The oracle on state maps *)

Lemma spec_float_same_eq (x y : spec_float) :
  Js.spec_float_same x y = true ↔ x = y.
Proof.
  split; [| intros ->; apply spec_float_same_refl].
  destruct x as [s | s | | s m e], y as [t | t | | t n f]; simpl; try done.
  - intros H. apply Bool.eqb_prop in H. by subst.
  - intros H. apply Bool.eqb_prop in H. by subst.
  - rewrite !andb_true_iff. intros [[Hs Hm] He].
    apply Bool.eqb_prop in Hs. apply Pos.eqb_eq in Hm. apply Z.eqb_eq in He.
    by subst.
Qed.

(** [Object.is] on numbers is identity of the doubles. *)
Lemma same_value_eq (x y : float) : Js.same_value x y = true ↔ x = y.
Proof.
  unfold Js.same_value. rewrite spec_float_same_eq. split; [| by intros ->].
  intros H. rewrite <- (SF2Prim_Prim2SF x), <- (SF2Prim_Prim2SF y).
  by rewrite H.
Qed.

Lemma object_is_eq (v w : Js.Value) : Js.object_is v w = true ↔ v = w.
Proof.
  split; [| intros ->; apply object_is_refl].
  destruct v, w; simpl; try done.
  - intros H. apply String.eqb_eq in H. by subst.
  - intros H. apply same_value_eq in H. by subst.
  - intros H. apply Bool.eqb_prop in H. by subst.
  - intros H. apply Pos.eqb_eq in H. by subst.
  - intros H. apply Pos.eqb_eq in H. by subst.
Qed.

Lemma same_entries_eq (a b : StateMap) : State.same_entries a b ↔ a = b.
Proof.
  split.
  - intros [Hdom Hvals]. apply map_eq. intros key.
    specialize (Hvals key). apply object_is_eq in Hvals.
    unfold State.get in Hvals.
    destruct (a !! key) as [v |] eqn:Ha, (b !! key) as [w |] eqn:Hb.
    + by subst.
    + apply not_elem_of_dom in Hb. destruct Hb. rewrite <- Hdom.
      apply elem_of_dom. by exists v.
    + apply not_elem_of_dom in Ha. destruct Ha. rewrite Hdom.
      apply elem_of_dom. by exists w.
    + done.
  - intros ->. split; [done |]. intros key. apply object_is_refl.
Qed.

Lemma state_shallowEqual_eq (a b : StateMap) :
  State.shallowEqual a b = true ↔ a = b.
Proof. by rewrite state_shallowEqual_true, same_entries_eq. Qed.

(** X1.  On state maps (plain objects whose properties are all
    enumerable) [shallowEqual] returns [true] exactly when the two maps
    hold the same keys with values [Object.is] does not tell apart, that
    is when they are the same map; there it is symmetric and
    transitive. *)
Theorem oracle_is_equality_of_state_maps (a b c : StateMap) :
  (State.shallowEqual a b = true ↔ State.same_entries a b)
  ∧ (State.shallowEqual a b = true ↔ a = b)
  ∧ State.shallowEqual a b = State.shallowEqual b a
  ∧ (State.shallowEqual a b = true → State.shallowEqual b c = true →
     State.shallowEqual a c = true).
Proof.
  split; [apply state_shallowEqual_true |].
  split; [apply state_shallowEqual_eq |]. split.
  - destruct (State.shallowEqual a b) eqn:Hab.
    + apply state_shallowEqual_eq in Hab as ->.
      by rewrite state_shallowEqual_refl.
    + symmetry. apply not_true_is_false. intros Hba.
      apply state_shallowEqual_eq in Hba as ->.
      by rewrite state_shallowEqual_refl in Hab.
  - rewrite !state_shallowEqual_eq. congruence.
Qed.



(** ** [extract] *)







(** ** [apply] and [set] *)

(** Committed or not, the state [apply] leaves is the folded copy. *)
Lemma apply_state (items : list Reporter.Item) (this : Reporter.Reporter) :
  Reporter.state (Reporter.apply items this).1
  = foldl Reporter.apply_item (Reporter.state this) items.
Proof.
  rewrite apply_unfold.
  destruct (State.shallowEqual _ _) eqn:Heq; [| done].
  by apply state_shallowEqual_eq in Heq.
Qed.


(** X6.  For a key other than ["__proto__"] (which [Object.assign]
    hands to the setter of [Object.prototype]), [set(key, value)] leaves
    the state with [value] at [key] and every other entry as it was.  It
    emits nothing when the key already held that very value ([NaN] over
    [NaN] included) and one snapshot, the new state, otherwise; set again
    to the same value, it emits nothing.  It does what
    [apply(set(key, value))] does. *)
Theorem set_writes_one_key (key : string) (value : Js.Value)
    (this : Reporter.Reporter) :
  key ≠ "__proto__" →
  let result := Reporter.set key value this in
  Reporter.state result.1 = <[ key := value ]> (Reporter.state this)
  ∧ (Reporter.state this !! key = Some value → result = (this, []))
  ∧ (Reporter.state this !! key ≠ Some value →
     result.2 = [ <[ key := value ]> (Reporter.state this) ])
  ∧ Reporter.set key value result.1 = (result.1, [])
  ∧ result = Reporter.apply [Reporter.Op (Operations.set key value)] this.
Proof.
  intros _ result.
  assert (Hstate : Reporter.state result.1 = <[ key := value ]> (Reporter.state this)).
  { unfold result, Reporter.set. rewrite apply_state. simpl.
    unfold Reporter.apply_item. apply assign_singleton. }
  assert (Hunfold : ∀ that,
    Reporter.set key value that
    = if State.shallowEqual (Reporter.state that) (<[ key := value ]> (Reporter.state that))
      then (that, [])
      else Reporter.commit (<[ key := value ]> (Reporter.state that))).
  { intros that. unfold Reporter.set. rewrite apply_unfold. simpl.
    unfold Reporter.apply_item. by rewrite assign_singleton. }
  split; [done |]. split; [| split; [| split]].
  - intros Hkey. unfold result. rewrite Hunfold, insert_id; [| done].
    by rewrite state_shallowEqual_refl.
  - intros Hkey. unfold result. rewrite Hunfold.
    destruct (State.shallowEqual _ _) eqn:Heq; [| done].
    apply state_shallowEqual_eq in Heq. destruct Hkey.
    by rewrite Heq, lookup_insert_eq.
  - rewrite Hunfold, Hstate, insert_insert_eq, <- Hstate.
    by rewrite state_shallowEqual_refl.
  - done.
Qed.

(** On [{ a: 1, b: 2, c: 3 }], [set("b", 2)] emits nothing and
    [set("a", 5)] emits the new state. *)
Lemma set_on_a_b_c :
  let this := Reporter.constructor (Some Scenario.a_b_c) in
  Reporter.set "b" (Js.VNumber 2) this = (this, [])
  ∧ (Reporter.set "a" (Js.VNumber 5) this).2
    = [ <[ "a" := Js.VNumber 5 ]> Scenario.a_b_c ].
Proof.
  assert (Hb : "b" ≠ "__proto__") by discriminate.
  assert (Ha : "a" ≠ "__proto__") by discriminate.
  pose proof (set_writes_one_key "b" (Js.VNumber 2)
                (Reporter.constructor (Some Scenario.a_b_c)) Hb)
    as [_ [Hsame _]].
  pose proof (set_writes_one_key "a" (Js.VNumber 5)
                (Reporter.constructor (Some Scenario.a_b_c)) Ha)
    as [_ [_ [Hother _]]].
  split.
  - apply Hsame. reflexivity.
  - apply Hother. vm_compute. discriminate.
Defined.

Lemma apply_item_dom (next : StateMap) (item : Reporter.Item) :
  dom next ⊆ dom (Reporter.apply_item next item).
Proof.
  unfold Reporter.apply_item, State.assign. rewrite dom_union_L. set_solver.
Qed.

Lemma apply_fold_dom (items : list Reporter.Item) (state : StateMap) :
  dom state ⊆ dom (foldl Reporter.apply_item state items).
Proof.
  revert state. induction items as [| item items IH]; intros state; [done |].
  simpl. etransitivity; [apply apply_item_dom | apply IH].
Qed.

(** X7.  [apply] never removes a key, whatever the deltas and the
    operations; with no item it does nothing; it emits at most one
    snapshot; and a key that no item mentions, in a batch of raw deltas,
    keeps its value. *)
Theorem apply_only_writes (items : list Reporter.Item) (this : Reporter.Reporter)
    (key : string) :
  dom (Reporter.state this) ⊆ dom (Reporter.state (Reporter.apply items this).1)
  ∧ Reporter.apply [] this = (this, [])
  ∧ (length (Reporter.apply items this).2 ≤ 1)%nat
  ∧ (Forall (λ item, ∃ delta, item = Reporter.Delta delta ∧ delta !! key = None)
       items →
     Reporter.state (Reporter.apply items this).1 !! key
     = Reporter.state this !! key).
Proof.
  split; [| split; [| split]].
  - rewrite apply_state. apply apply_fold_dom.
  - rewrite apply_unfold. simpl. by rewrite state_shallowEqual_refl.
  - rewrite apply_unfold. destruct (State.shallowEqual _ _); simpl; lia.
  - rewrite apply_state. generalize (Reporter.state this).
    induction items as [| item items IH]; intros state Hall; [done |].
    apply Forall_cons in Hall as [[delta [-> Hnone]] Hall].
    simpl. rewrite IH; [| done].
    unfold Reporter.apply_item. by rewrite assign_lookup, Hnone.
Qed.

(** The batch [{ bar: 5 }] leaves [foo] as it was. *)
Lemma apply_only_writes_bar :
  Reporter.state
    (Reporter.apply [Reporter.Delta {[ "bar" := Js.VNumber 5 ]}]
       (Reporter.constructor (Some Scenario.foo_10))).1 !! "foo"
  = Some (Js.VNumber 10).
Proof.
  pose proof (apply_only_writes [Reporter.Delta {[ "bar" := Js.VNumber 5 ]}]
                (Reporter.constructor (Some Scenario.foo_10)) "foo")
    as [_ [_ [_ Hkept]]].
  rewrite Hkept; [reflexivity |].
  apply Forall_cons. split; [| by apply Forall_nil].
  eexists. split; reflexivity.
Defined.


(** ** The streams *)

Lemma changing_lookup {A : Type} (comparator : A → A → bool) (prev : A)
    (xs : list A) (i : nat) (x y : A) :
  Rx.changing comparator prev xs →
  (prev :: xs) !! i = Some x → (prev :: xs) !! S i = Some y →
  comparator x y = false.
Proof.
  revert prev i. induction xs as [| z xs IH]; intros prev i Hch Hx Hy.
  - by destruct i.
  - destruct Hch as [Hz Hch]. destruct i as [| i].
    + simpl in Hx, Hy. by simplify_eq.
    + by apply (IH z i).
Qed.

Lemma map_snd_pairs_after {A : Type} (prev : A) (xs : list A) :
  List.map snd (Rx.pairs_after prev xs) = xs.
Proof.
  revert prev. induction xs as [| x xs IH]; intros prev; [done |].
  simpl. by rewrite IH.
Qed.

Lemma filter_map_sublist {A B : Type} (p : A → bool) (f : A → B) (l : list A) :
  sublist (List.map f (List.filter p l)) (List.map f l).
Proof.
  induction l as [| x l IH]; [done |].
  simpl. destruct (p x); simpl; by constructor.
Qed.

Lemma filter_mono_sublist {A : Type} (p q : A → bool) (l : list A) :
  (∀ x, p x = true → q x = true) →
  sublist (List.filter p l) (List.filter q l).
Proof.
  intros Hpq. induction l as [| x l IH]; [done |].
  simpl. destruct (p x) eqn:Hp.
  - rewrite (Hpq x Hp). by constructor.
  - destruct (q x); [by constructor | done].
Qed.

(** X9.  A subscriber of [metrics$] that subscribes to a new reporter
    receives its initial snapshot, then every committed snapshot in the
    order of the commits and nothing else; no two values in a row are the
    same map; and the last one is what [snapshot()] returns. *)
Theorem metrics_delivers_the_commit_history (initial : option StateMap)
    (calls : list Reporter.Call) :
  let this := Reporter.constructor initial in
  let delivered := Reporter.received Reporter.metrics this calls in
  delivered = Reporter.snapshot this :: (Reporter.run calls this).2
  ∧ List.last delivered (Reporter.snapshot this)
    = Reporter.snapshot (Reporter.run calls this).1
  ∧ (∀ i previous current,
       delivered !! i = Some previous → delivered !! S i = Some current →
       previous ≠ current).
Proof.
  intros this delivered.
  assert (Hthis : Reporter.consistent this) by done.
  destruct (run_invariant calls this Hthis) as [_ [Hchanging Hlast]].
  assert (Hdelivered : delivered
                       = Reporter.snapshot this :: (Reporter.run calls this).2)
    by by apply metrics_forwards_all.
  split; [done |]. split.
  - rewrite Hdelivered, last_cons_default. apply Hlast.
  - intros i previous current Hi HSi Hsame.
    rewrite Hdelivered in Hi, HSi.
    pose proof (changing_lookup _ _ _ _ _ _ Hchanging Hi HSi) as Hne.
    rewrite Hsame, state_shallowEqual_refl in Hne. done.
Qed.

(** X10.  The stream of [watch(...keys)] forwards snapshots that
    [metrics$] delivers to a subscriber at the same time, in the same
    order, and no other. *)
Theorem watch_forwards_only_what_metrics_delivers (keys : list string)
    (this0 this1 : Reporter.Reporter) (calls : list Reporter.Call) :
  Reporter.consistent this1 →
  sublist (Reporter.received (Reporter.watch keys this0) this1 calls)
    (Reporter.received Reporter.metrics this1 calls).
Proof.
  intros Hthis1. rewrite watch_received, metrics_forwards_all; [| done ..].
  unfold Rx.map, Rx.filter.
  etransitivity; [apply filter_map_sublist |].
  simpl. by rewrite map_snd_pairs_after.
Qed.

(** On [{ a: 1, b: 2, c: 3 }], what [watch("a", "c")] forwards during the
    calls of the test is part of what [metrics$] delivers. *)
Lemma watch_a_c_within_metrics :
  let initial := Reporter.constructor (Some Scenario.a_b_c) in
  sublist
    (Reporter.received (Reporter.watch ["a"; "c"] initial) initial
       [Scenario.set_b; Scenario.set_a; Scenario.change_a_b_c])
    (Reporter.received Reporter.metrics initial
       [Scenario.set_b; Scenario.set_a; Scenario.change_a_b_c]).
Proof.
  apply (watch_forwards_only_what_metrics_delivers ["a"; "c"]
           (Reporter.constructor (Some Scenario.a_b_c))
           (Reporter.constructor (Some Scenario.a_b_c))).
  reflexivity.
Defined.

Lemma watched_key_changed_mono (keys more : list string)
    (pair : StateMap * StateMap) :
  keys ⊆ more →
  Reporter.watched_key_changed keys pair = true →
  Reporter.watched_key_changed more pair = true.
Proof.
  intros Hsub. unfold Reporter.watched_key_changed. destruct pair as [prev curr].
  rewrite !existsb_exists. intros [k [Hin Hk]]. exists k. split; [| done].
  apply list_elem_of_In, Hsub. by apply list_elem_of_In.
Qed.

(** X11.  Watching more keys loses nothing: what [watch] forwards for
    some keys, it forwards for every list that names those keys, with
    others or not; and the stream depends only on which keys are named:
    two lists that name the same keys, in whatever order and however
    often, give the same stream. *)
Theorem watch_more_keys_forwards_more (keys more : list string)
    (this : Reporter.Reporter) (delivered : list StateMap) :
  keys ⊆ more →
  sublist (Reporter.watch keys this delivered)
    (Reporter.watch more this delivered)
  ∧ (more ⊆ keys →
     Reporter.watch more this delivered = Reporter.watch keys this delivered).
Proof.
  intros Hsub. unfold Reporter.watch, Rx.map, Rx.filter.
  generalize (Rx.pairwise (Rx.startWith (Reporter.snapshot this)
                             (Reporter.metrics delivered))).
  intros pairs. split.
  - apply (fmap_sublist snd), filter_mono_sublist. intros pair.
    by apply watched_key_changed_mono.
  - intros Hback. f_equal. apply List.filter_ext. intros pair.
    destruct (Reporter.watched_key_changed keys pair) eqn:Hkeys.
    + by apply (watched_key_changed_mono keys more).
    + apply not_true_iff_false. intros Hmore.
      apply (watched_key_changed_mono more keys pair Hback) in Hmore.
      congruence.
Qed.

(** On [{ a: 1, b: 2, c: 3 }], after [set("b", 20)] and [set("a", 5)],
    [watch("c", "a", "c")] and [watch("a", "c")] forward the same
    snapshots, and [watch("a")] forwards some of them. *)
Lemma watch_c_a_c_is_watch_a_c :
  let initial := Reporter.constructor (Some Scenario.a_b_c) in
  let delivered :=
    Reporter.subject initial
    :: (Reporter.run [Scenario.set_b; Scenario.set_a] initial).2 in
  Reporter.watch ["c"; "a"; "c"] initial delivered
  = Reporter.watch ["a"; "c"] initial delivered
  ∧ sublist (Reporter.watch ["a"] initial delivered)
      (Reporter.watch ["a"; "c"] initial delivered).
Proof.
  intros initial delivered.
  assert (Hsub : ["a"; "c"] ⊆ ["c"; "a"; "c"]).
  { intros k Hk. apply list_elem_of_In in Hk. apply list_elem_of_In.
    simpl in *. tauto. }
  assert (Hback : ["c"; "a"; "c"] ⊆ ["a"; "c"]).
  { intros k Hk. apply list_elem_of_In in Hk. apply list_elem_of_In.
    simpl in *. tauto. }
  assert (Hone : ["a"] ⊆ ["a"; "c"]).
  { intros k Hk. apply list_elem_of_In in Hk. apply list_elem_of_In.
    simpl in *. tauto. }
  split.
  - exact (proj2 (watch_more_keys_forwards_more ["a"; "c"] ["c"; "a"; "c"]
                    initial delivered Hsub) Hback).
  - exact (proj1 (watch_more_keys_forwards_more ["a"] ["a"; "c"]
                    initial delivered Hone)).
Defined.

(** ** [prune] again *)

Lemma forallb_independent (predicates : list Reporter.Predicate)
    (state state' : StateMap) (key : string) :
  (∀ fn, fn ∈ predicates → ∀ s s' k, fn s k = fn s' k) →
  forallb (λ fn, fn state key) predicates
  = forallb (λ fn, fn state' key) predicates.
Proof.
  induction predicates as [| fn rest IH]; intros Hind; [done |].
  simpl. rewrite (Hind fn (ltac:(by left)) state state' key), IH; [done |].
  intros fn' Hin. apply Hind. by right.
Qed.

Lemma prune_state (predicates : list Reporter.Predicate) (this : Reporter.Reporter) :
  Reporter.state (Reporter.prune predicates this).1
  = Contract.prune_result predicates (Reporter.state this).
Proof.
  rewrite prune_unfold. destruct (existsb _ _) eqn:Hrem; [done |].
  simpl. symmetry. apply map_eq. intros key. apply option_eq. intros value.
  rewrite prune_result_lookup. split; [intros Hboth; apply Hboth |].
  intros Hlk. split; [done |].
  apply not_true_iff_false in Hrem.
  case_every predicates Hp; [done |]. destruct Hrem.
  apply existsb_exists. exists key. split.
  - apply list_elem_of_In, state_keys_dom, elem_of_dom. by exists value.
  - cbn beta. by rewrite Hp.
Qed.

Lemma prune_nothing_to_remove (predicates : list Reporter.Predicate)
    (this : Reporter.Reporter) :
  (∀ key, key ∈ dom (Reporter.state this) →
     forallb (λ fn, fn (Reporter.state this) key) predicates = true) →
  Reporter.prune predicates this = (this, []).
Proof.
  intros Hall. rewrite prune_unfold.
  destruct (existsb _ _) eqn:Hrem; [| done].
  apply existsb_exists in Hrem as [key [Hin Hp]].
  apply list_elem_of_In, state_keys_dom in Hin.
  cbn beta in Hp. by rewrite (Hall key Hin) in Hp.
Qed.

(** X12.  [prune] only removes: the state it leaves is part of the state
    it found, values included.  With no predicate it removes nothing and
    emits nothing.  Run again with predicates that look at the key only,
    it finds nothing more to remove and emits nothing. *)
Theorem prune_only_removes (predicates : list Reporter.Predicate)
    (this : Reporter.Reporter) :
  Reporter.state (Reporter.prune predicates this).1 ⊆ Reporter.state this
  ∧ Reporter.prune [] this = (this, [])
  ∧ ((∀ fn, fn ∈ predicates → ∀ s s' k, fn s k = fn s' k) →
     Reporter.prune predicates (Reporter.prune predicates this).1
     = ((Reporter.prune predicates this).1, [])).
Proof.
  split; [| split].
  - rewrite prune_state. apply map_filter_subseteq.
  - by apply prune_nothing_to_remove.
  - intros Hind. apply prune_nothing_to_remove. intros key Hin.
    rewrite prune_state in *. apply elem_of_dom in Hin as [value Hlk].
    apply prune_result_lookup in Hlk as [_ Hp].
    by rewrite <- (forallb_independent predicates (Reporter.state this)).
Qed.

(** On [{ foo: 1, bar: 2, baz: 3, qux: 4 }], pruning twice by
    [k !== "foo"] and [k !== "bar"] emits nothing the second time. *)
Lemma prune_twice_not_foo_not_bar :
  let pruned :=
    (Reporter.prune [Scenario.not_foo; Scenario.not_bar]
       (Reporter.constructor (Some Scenario.foo_bar_baz_qux))).1 in
  Reporter.prune [Scenario.not_foo; Scenario.not_bar] pruned = (pruned, []).
Proof.
  refine (proj2 (proj2 (prune_only_removes [Scenario.not_foo; Scenario.not_bar]
                          (Reporter.constructor (Some Scenario.foo_bar_baz_qux)))) _).
  intros fn Hin s s' k.
  apply elem_of_cons in Hin as [-> | Hin]; [reflexivity |].
  apply elem_of_cons in Hin as [-> | Hin]; [reflexivity |].
  by apply elem_of_nil in Hin.
Defined.

(** ** The earlier reporters: [apply] and [capture] *)






Lemma state_keys_singleton (key : string) (v : Js.Value) :
  State.keys {[ key := v ]} = [key].
Proof. unfold State.keys. by rewrite map_to_list_singleton. Qed.

(** [set] of the earlier [Reporter]. *)
Lemma throwing_set_unfold (key : string) (v : Js.Value)
    (this : ThrowingReporter.Reporter) :
  ThrowingReporter.set key v this
  = if Js.object_is v (State.get (ThrowingReporter.state this) key)
    then (ThrowingReporter.Normal, this, [])
    else (ThrowingReporter.Normal,
          ThrowingReporter.mkReporter (<[ key := v ]> (ThrowingReporter.state this)),
          [ <[ key := v ]> (ThrowingReporter.state this) ]).
Proof.
  unfold ThrowingReporter.set, ThrowingReporter.apply.
  rewrite state_keys_singleton. simpl. unfold ThrowingReporter.apply_key.
  assert (Hget : State.get ({[ key := v ]} : StateMap) key = v).
  { unfold State.get. by rewrite lookup_singleton_eq. }
  rewrite Hget. by destruct (Js.object_is _ _).
Qed.




(** X15.  In the earlier [Reporter], on a key that holds a truthy number
    [add(key, value)] and [sub(key, value)] never throw: they leave the
    key at [current + value] (at [current - value]) and every other entry
    as it was, and emit the new state unless the sum is the number the
    key held. *)
Theorem throwing_add_sub_on_number (key : string) (value current : float)
    (this : ThrowingReporter.Reporter) :
  ThrowingReporter.state this !! key = Some (Js.VNumber current) →
  Js.to_boolean (Js.VNumber current) = true →
  let added := ThrowingReporter.add key value this in
  let subtracted := ThrowingReporter.sub key value this in
  added.1.1 = ThrowingReporter.Normal
  ∧ ThrowingReporter.state added.1.2
    = <[ key := Js.VNumber (current + value) ]> (ThrowingReporter.state this)
  ∧ (added.2 = [] ↔ (current + value)%float = current)
  ∧ subtracted.1.1 = ThrowingReporter.Normal
  ∧ ThrowingReporter.state subtracted.1.2
    = <[ key := Js.VNumber (current - value) ]> (ThrowingReporter.state this)
  ∧ (subtracted.2 = [] ↔ (current - value)%float = current).
Proof.
  intros Hkey Htruthy added subtracted.
  assert (Hget : State.get (ThrowingReporter.state this) key = Js.VNumber current).
  { unfold State.get. by rewrite Hkey. }
  assert (Hset : ∀ n,
    let result := ThrowingReporter.set key (Js.VNumber n) this in
    result.1.1 = ThrowingReporter.Normal
    ∧ ThrowingReporter.state result.1.2
      = <[ key := Js.VNumber n ]> (ThrowingReporter.state this)
    ∧ (result.2 = [] ↔ n = current)).
  { intros n result. unfold result. rewrite throwing_set_unfold, Hget.
    destruct (Js.object_is _ _) eqn:His; cbn [fst snd ThrowingReporter.state].
    - apply object_is_eq in His. injection His as ->.
      split; [done |]. split; [| done]. by rewrite insert_id.
    - split; [done |]. split; [done |]. split; [done |].
      intros ->. by rewrite object_is_refl in His. }
  assert (Hadd : added = ThrowingReporter.set key (Js.VNumber (current + value)) this).
  { unfold added, ThrowingReporter.add. by rewrite Hget, Htruthy. }
  assert (Hsub : subtracted
                 = ThrowingReporter.set key (Js.VNumber (current - value)) this).
  { unfold subtracted, ThrowingReporter.sub. by rewrite Hget, Htruthy. }
  rewrite Hadd, Hsub.
  destruct (Hset (current + value)%float) as [? [? ?]].
  destruct (Hset (current - value)%float) as [? [? ?]].
  done.
Qed.

(** The chain of the test: from [{ x: 1 }], [add("x", 2)] leaves 3. *)
Lemma throwing_add_on_x_1 :
  let this := ThrowingReporter.constructor (Some {[ "x" := Js.VNumber 1 ]}) in
  ThrowingReporter.state (ThrowingReporter.add "x" 2 this).1.2
  = {[ "x" := Js.VNumber 3 ]}.
Proof.
  assert (Hkey : ThrowingReporter.state
                   (ThrowingReporter.constructor (Some {[ "x" := Js.VNumber 1 ]}))
                 !! "x" = Some (Js.VNumber 1)) by reflexivity.
  assert (Htruthy : Js.to_boolean (Js.VNumber 1) = true) by reflexivity.
  pose proof (throwing_add_sub_on_number "x" 2 1
                (ThrowingReporter.constructor (Some {[ "x" := Js.VNumber 1 ]}))
                Hkey Htruthy) as [_ [Hstate _]].
  cbv zeta in Hstate |- *. etransitivity; [exact Hstate |]. by vm_compute.
Defined.

(** ** [MetricsReporter] *)

Lemma getChanges_fold (prev next : StateMap) (ks : list string)
    (acc : list MetricsReporter.MetricsChange) (c : MetricsReporter.MetricsChange) :
  c ∈ foldl
        (λ changes key,
           if negb (Js.object_is (State.get prev key) (State.get next key))
           then changes
                ++ [MetricsReporter.mkChange key (State.get prev key)
                      (State.get next key)]
           else changes)
        acc ks
  ↔ c ∈ acc
    ∨ ∃ key, key ∈ ks
             ∧ Js.object_is (State.get prev key) (State.get next key) = false
             ∧ c = MetricsReporter.mkChange key (State.get prev key)
                     (State.get next key).
Proof.
  revert acc. induction ks as [| k ks IH]; intros acc.
  - simpl. split; [by left |]. intros [H | [key [Hin _]]]; [done |].
    by apply elem_of_nil in Hin.
  - simpl. rewrite IH. clear IH.
    destruct (Js.object_is (State.get prev k) (State.get next k)) eqn:His; simpl.
    + split.
      * intros [H | [key [Hin H]]]; [by left | right].
        exists key. split; [by right | done].
      * intros [H | [key [Hin [Hd Hc]]]]; [by left | right].
        apply elem_of_cons in Hin as [-> | Hin]; [congruence |].
        by exists key.
    + rewrite elem_of_app, list_elem_of_singleton. split.
      * intros [[H | ->] | [key [Hin H]]]; [by left | right | right].
        -- exists k. split; [by left | done].
        -- exists key. split; [by right | done].
      * intros [H | [key [Hin [Hd Hc]]]]; [by left; left |].
        apply elem_of_cons in Hin as [-> | Hin]; [by left; right |].
        right. by exists key.
Qed.

Lemma getChanges_length (prev next : StateMap) (ks : list string)
    (acc : list MetricsReporter.MetricsChange) :
  (length
     (foldl
        (λ changes key,
           if negb (Js.object_is (State.get prev key) (State.get next key))
           then changes
                ++ [MetricsReporter.mkChange key (State.get prev key)
                      (State.get next key)]
           else changes)
        acc ks)
   ≤ length acc + length ks)%nat.
Proof.
  revert acc. induction ks as [| k ks IH]; intros acc; simpl; [lia |].
  etransitivity; [apply IH |].
  destruct (negb _); rewrite ?length_app; simpl; lia.
Qed.

(** The keys of the records, in order: the keys visited that differ. *)
Lemma getChanges_keys (prev next : StateMap) (ks : list string)
    (acc : list MetricsReporter.MetricsChange) :
  MetricsReporter.key
  <$> foldl
        (λ changes key,
           if negb (Js.object_is (State.get prev key) (State.get next key))
           then changes
                ++ [MetricsReporter.mkChange key (State.get prev key)
                      (State.get next key)]
           else changes)
        acc ks
  = (MetricsReporter.key <$> acc)
    ++ List.filter
         (λ key, negb (Js.object_is (State.get prev key) (State.get next key)))
         ks.
Proof.
  revert acc. induction ks as [| k ks IH]; intros acc.
  - simpl. by rewrite app_nil_r.
  - cbn [foldl List.filter]. rewrite IH.
    destruct (negb (Js.object_is (State.get prev k) (State.get next k)));
      [| done].
    rewrite fmap_app. cbn. by rewrite <- app_assoc.
Qed.

(** X16.  For a next state whose keys name no member of
    [Object.prototype], [#getChanges] reports exactly one record for
    each key of the next state whose value differs, under [Object.is],
    from what the previous state reads, with the two values ([undefined]
    before, for a new key), and nothing else: no two records bear the
    same key, a key that the next state lacks is never reported, and
    there are no more records than keys. *)
Theorem getChanges_reports_differences (prev next : StateMap)
    (c : MetricsReporter.MetricsChange) :
  State.own_names next = true →
  (c ∈ MetricsReporter.getChanges prev next
   ↔ MetricsReporter.key c ∈ dom next
     ∧ MetricsReporter.before c = State.get prev (MetricsReporter.key c)
     ∧ MetricsReporter.after c = State.get next (MetricsReporter.key c)
     ∧ MetricsReporter.before c ≠ MetricsReporter.after c)
  ∧ (MetricsReporter.getChanges prev next = []
     ↔ ∀ key, key ∈ dom next → State.get prev key = State.get next key)
  ∧ NoDup (MetricsReporter.key <$> MetricsReporter.getChanges prev next)
  ∧ (length (MetricsReporter.getChanges prev next) ≤ size next)%nat.
Proof.
  intros _.
  assert (Hmem : ∀ c,
    c ∈ MetricsReporter.getChanges prev next
    ↔ MetricsReporter.key c ∈ dom next
      ∧ MetricsReporter.before c = State.get prev (MetricsReporter.key c)
      ∧ MetricsReporter.after c = State.get next (MetricsReporter.key c)
      ∧ MetricsReporter.before c ≠ MetricsReporter.after c).
  { intros c'. unfold MetricsReporter.getChanges. rewrite getChanges_fold. split.
    - intros [H | [key [Hin [Hd ->]]]]; [by apply elem_of_nil in H |].
      simpl. split; [by apply state_keys_dom |]. split; [done |].
      split; [done |]. intros Heq. by rewrite Heq, object_is_refl in Hd.
    - intros [Hin [Hb [Ha Hne]]]. right. exists (MetricsReporter.key c').
      split; [by apply state_keys_dom |]. split.
      + apply not_true_iff_false. intros His. apply object_is_eq in His.
        congruence.
      + destruct c' as [k b a]. simpl in *. by subst. }
  split; [apply Hmem |]. split.
  - split.
    + intros Hnil key Hin.
      destruct (Js.object_is (State.get prev key) (State.get next key)) eqn:His;
        [by apply object_is_eq |].
      assert (Hc : MetricsReporter.mkChange key (State.get prev key)
                     (State.get next key)
                   ∈ MetricsReporter.getChanges prev next).
      { apply Hmem. simpl. split; [done |]. split; [done |]. split; [done |].
        intros Heq. by rewrite Heq, object_is_refl in His. }
      rewrite Hnil in Hc. by apply elem_of_nil in Hc.
    + intros Hall.
      destruct (MetricsReporter.getChanges prev next) as [| c' rest];
        [done |].
      destruct (proj1 (Hmem c') (ltac:(by left))) as [Hin [Hb [Ha Hne]]].
      destruct Hne. rewrite Hb, Ha. by apply Hall.
  - split.
    + unfold MetricsReporter.getChanges. rewrite getChanges_keys.
      cbn [fmap list_fmap app].
      apply NoDup_ListNoDup, List.NoDup_filter, NoDup_ListNoDup.
      apply NoDup_fst_map_to_list.
    + unfold MetricsReporter.getChanges.
      etransitivity; [apply getChanges_length |].
      unfold State.keys. by rewrite length_fmap, length_map_to_list.
Qed.

(** From [{ a: 1, b: 2 }] to [{ a: 1, b: 2, c: 4 }], the new key [c] is
    reported with [undefined] before, and no key is reported twice. *)
Lemma getChanges_reports_a_new_key :
  let prev : StateMap := {[ "a" := Js.VNumber 1; "b" := Js.VNumber 2 ]} in
  let next : StateMap :=
    {[ "a" := Js.VNumber 1; "b" := Js.VNumber 2; "c" := Js.VNumber 4 ]} in
  MetricsReporter.mkChange "c" Js.VUndefined (Js.VNumber 4)
  ∈ MetricsReporter.getChanges prev next
  ∧ NoDup (MetricsReporter.key <$> MetricsReporter.getChanges prev next).
Proof.
  intros prev next.
  assert (Hnames : State.own_names next = true) by (vm_compute; reflexivity).
  pose proof (getChanges_reports_differences prev next
                (MetricsReporter.mkChange "c" Js.VUndefined (Js.VNumber 4))
                Hnames) as [Hmem [_ [Hnodup _]]].
  split; [| exact Hnodup].
  apply Hmem. cbn [MetricsReporter.key MetricsReporter.before MetricsReporter.after].
  split; [| split; [reflexivity | split; [reflexivity | discriminate]]].
  apply elem_of_dom. exists (Js.VNumber 4). reflexivity.
Defined.







(** ** [deepEqual] *)

(** [deepEqual] on each class of objects, past the tests that a pair of
    objects of one class passes. *)
Lemma deepEqual_array (r s : positive) (items items' : list DeepEqual.Any) :
  DeepEqual.deepEqual (DeepEqual.AArray r items) (DeepEqual.AArray s items')
  = if Pos.eqb r s then true
    else if negb (Nat.eqb (length items) (length items')) then false
    else DeepEqual.every_from (DeepEqual.AArray s items') items 0.
Proof.
  cbn [DeepEqual.deepEqual DeepEqual.strict_equals DeepEqual.object_is].
  unfold DeepEqual.same_reference. cbn [DeepEqual.reference].
  destruct (Pos.eqb r s); reflexivity.
Qed.

Lemma deepEqual_map (r s : positive) (entries entries' : list (DeepEqual.Any * DeepEqual.Any)) :
  DeepEqual.deepEqual (DeepEqual.AMap r entries) (DeepEqual.AMap s entries')
  = if Pos.eqb r s then true
    else if negb (Nat.eqb (length entries) (length entries')) then false
    else DeepEqual.each_entry (DeepEqual.AMap s entries') entries.
Proof.
  cbn [DeepEqual.deepEqual DeepEqual.strict_equals DeepEqual.object_is].
  unfold DeepEqual.same_reference. cbn [DeepEqual.reference].
  destruct (Pos.eqb r s); reflexivity.
Qed.

Lemma deepEqual_set (r s : positive) (members members' : list DeepEqual.Any) :
  DeepEqual.deepEqual (DeepEqual.ASet r members) (DeepEqual.ASet s members')
  = if Pos.eqb r s then true
    else if negb (Nat.eqb (length members) (length members')) then false
    else DeepEqual.each_member (DeepEqual.ASet s members') members.
Proof.
  cbn [DeepEqual.deepEqual DeepEqual.strict_equals DeepEqual.object_is].
  unfold DeepEqual.same_reference. cbn [DeepEqual.reference].
  destruct (Pos.eqb r s); reflexivity.
Qed.

Lemma deepEqual_date (r s : positive) (time time' : float) :
  DeepEqual.deepEqual (DeepEqual.ADate r time) (DeepEqual.ADate s time')
  = if Pos.eqb r s then true else PrimFloat.eqb time time'.
Proof.
  cbn [DeepEqual.deepEqual DeepEqual.strict_equals DeepEqual.object_is].
  unfold DeepEqual.same_reference. cbn [DeepEqual.reference].
  destruct (Pos.eqb r s); reflexivity.
Qed.

Lemma deepEqual_object (r s : positive)
    (props props' : list (string * (bool * DeepEqual.Any))) :
  DeepEqual.deepEqual (DeepEqual.AObject r props) (DeepEqual.AObject s props')
  = if Pos.eqb r s then true
    else if negb (Nat.eqb (length (DeepEqual.keys (DeepEqual.AObject r props)))
                    (length (DeepEqual.keys (DeepEqual.AObject s props'))))
         then false
         else DeepEqual.each_prop (DeepEqual.AObject s props') props.
Proof.
  cbn [DeepEqual.deepEqual DeepEqual.strict_equals DeepEqual.object_is].
  unfold DeepEqual.same_reference. cbn [DeepEqual.reference].
  destruct (Pos.eqb r s); reflexivity.
Qed.

(** *** Primitives *)

Lemma SFeqb_same (x : spec_float) : SFeqb x x = false → x = S754_nan.
Proof.
  destruct x as [s | s | | s m e]; unfold SFeqb; simpl; try done.
  - by destruct s.
  - rewrite Z.compare_refl, Pos.compare_cont_refl. by destruct s.
Qed.

Lemma is_nan_spec (x : float) : PrimFloat.is_nan x = true → Prim2SF x = S754_nan.
Proof.
  unfold PrimFloat.is_nan. rewrite FloatAxioms.eqb_spec. intros H.
  apply SFeqb_same. by apply negb_true_iff.
Qed.

(** On numbers, [a === b || Object.is(a, b)] is SameValueZero. *)
Lemma strict_or_same_value (x y : float) :
  PrimFloat.eqb x y || Js.same_value x y
  = PrimFloat.eqb x y || (PrimFloat.is_nan x && PrimFloat.is_nan y).
Proof.
  destruct (PrimFloat.eqb x y) eqn:Heq; [done |]. simpl.
  destruct (Js.same_value x y) eqn:Hsame.
  - apply same_value_eq in Hsame. subst y.
    unfold PrimFloat.is_nan. by rewrite Heq.
  - destruct (PrimFloat.is_nan x) eqn:Hx; [| done].
    destruct (PrimFloat.is_nan y) eqn:Hy; [| done].
    unfold Js.same_value in Hsame.
    by rewrite (is_nan_spec x Hx), (is_nan_spec y Hy) in Hsame.
Qed.

(** X18.  When one of the two values is a primitive, [deepEqual] is
    SameValueZero: [NaN] equals [NaN], [+0] equals [-0] (which
    [Object.is] and [shallowEqual] tell apart), and a primitive equals
    no value of another type and no object. *)
Theorem deepEqual_on_primitives (a b : DeepEqual.Any) :
  DeepEqual.is_primitive a = true ∨ DeepEqual.is_primitive b = true →
  DeepEqual.deepEqual a b = DeepEqual.same_value_zero a b.
Proof.
  intros Hprim.
  destruct a, b; try (by destruct Hprim); try reflexivity;
    cbn [DeepEqual.deepEqual DeepEqual.strict_equals DeepEqual.object_is
         DeepEqual.same_value_zero].
  - destruct (String.eqb s s0); reflexivity.
  - rewrite <- strict_or_same_value.
    destruct (PrimFloat.eqb n n0); [reflexivity |].
    destruct (Js.same_value n n0); reflexivity.
  - destruct (Bool.eqb b0 b); reflexivity.
Qed.

(** [NaN] is [deepEqual] to [NaN] and to no object. *)
Lemma deepEqual_on_nan :
  DeepEqual.deepEqual (DeepEqual.ANumber nan) (DeepEqual.ANumber nan) = true
  ∧ DeepEqual.deepEqual (DeepEqual.ANumber nan) (DeepEqual.AArray 1 []) = false.
Proof.
  split.
  - rewrite (deepEqual_on_primitives (DeepEqual.ANumber nan) (DeepEqual.ANumber nan));
      [reflexivity | left; reflexivity].
  - rewrite (deepEqual_on_primitives (DeepEqual.ANumber nan) (DeepEqual.AArray 1 []));
      [reflexivity | left; reflexivity].
Defined.

(** *** Structural equality *)

(** Induction on a value, through the lists it holds. *)
Section AnyInduction.
Variable P : DeepEqual.Any → Prop.
Hypothesis Hstring : ∀ s, P (DeepEqual.AString s).
Hypothesis Hnumber : ∀ n, P (DeepEqual.ANumber n).
Hypothesis Hboolean : ∀ b, P (DeepEqual.ABoolean b).
Hypothesis Hnull : P DeepEqual.ANull.
Hypothesis Hundefined : P DeepEqual.AUndefined.
Hypothesis Hfunction : ∀ r, P (DeepEqual.AFunction r).
Hypothesis Harray : ∀ r items, Forall P items → P (DeepEqual.AArray r items).
Hypothesis Hmap :
  ∀ r entries, Forall (λ e, P e.2) entries → P (DeepEqual.AMap r entries).
Hypothesis Hset : ∀ r members, P (DeepEqual.ASet r members).
Hypothesis Hdate : ∀ r time, P (DeepEqual.ADate r time).
Hypothesis Hobject :
  ∀ r props, Forall (λ p, P p.2.2) props → P (DeepEqual.AObject r props).

Lemma Any_ind (a : DeepEqual.Any) : P a.
Proof.
  revert a. fix IH 1. intros [s | n | b | | | r | r items | r entries
                              | r members | r time | r props].
  - apply Hstring.
  - apply Hnumber.
  - apply Hboolean.
  - apply Hnull.
  - apply Hundefined.
  - apply Hfunction.
  - apply Harray. induction items as [| x items IHitems];
      constructor; [apply IH | apply IHitems].
  - apply Hmap. induction entries as [| e entries IHentries];
      constructor; [apply IH | apply IHentries].
  - apply Hset.
  - apply Hdate.
  - apply Hobject. induction props as [| p props IHprops];
      constructor; [apply IH | apply IHprops].
Qed.

End AnyInduction.

Lemma plain_array (r : positive) (items : list DeepEqual.Any) :
  DeepEqual.plain (DeepEqual.AArray r items) ↔ Forall DeepEqual.plain items.
Proof.
  cbn [DeepEqual.plain]. induction items as [| x items IH].
  - split; [intros _; by apply Forall_nil | done].
  - rewrite Forall_cons, IH. done.
Qed.

Lemma plain_map (r : positive) (entries : list (DeepEqual.Any * DeepEqual.Any)) :
  DeepEqual.plain (DeepEqual.AMap r entries)
  ↔ DeepEqual.distinct_keys entries
    ∧ Forall (λ e, DeepEqual.is_primitive e.1 = true ∧ DeepEqual.plain e.2)
        entries.
Proof.
  cbn [DeepEqual.plain]. apply and_iff_compat_l.
  induction entries as [| e entries IH].
  - split; [intros _; by apply Forall_nil | done].
  - rewrite Forall_cons, IH. done.
Qed.

Lemma plain_object (r : positive)
    (props : list (string * (bool * DeepEqual.Any))) :
  DeepEqual.plain (DeepEqual.AObject r props)
  ↔ NoDup props.*1 ∧ Forall (λ p, DeepEqual.plain p.2.2) props.
Proof.
  cbn [DeepEqual.plain]. apply and_iff_compat_l.
  induction props as [| p props IH].
  - split; [intros _; by apply Forall_nil | done].
  - rewrite Forall_cons, IH. done.
Qed.

Lemma renamed_primitive (rename : positive → positive) (a : DeepEqual.Any) :
  DeepEqual.is_primitive a = true → DeepEqual.renamed rename a = a.
Proof. by destruct a. Qed.

Lemma same_value_zero_refl (a : DeepEqual.Any) :
  DeepEqual.is_primitive a = true → DeepEqual.same_value_zero a a = true.
Proof.
  destruct a; try done; intros _; cbn.
  - apply String.eqb_refl.
  - unfold PrimFloat.is_nan. by destruct (PrimFloat.eqb n n).
  - by destruct b.
Qed.

(** The first element that satisfies a test, when only one position
    holds such an element. *)
Lemma find_unique {A} (test : A → bool) (l : list A) (i : nat) (x : A) :
  l !! i = Some x → test x = true →
  (∀ j y, l !! j = Some y → test y = true → j = i) →
  List.find test l = Some x.
Proof.
  revert i. induction l as [| y l IH]; intros i Hi Hx Hunique; [done |].
  cbn [List.find]. destruct (test y) eqn:Hy.
  - specialize (Hunique 0 y eq_refl Hy). subst i. by injection Hi as ->.
  - destruct i as [| i]; [injection Hi as ->; congruence |].
    apply (IH i); [done | done |].
    intros j z Hj Hz. specialize (Hunique (S j) z Hj Hz). congruence.
Qed.

Lemma existsb_elem {A} (test : A → bool) (l : list A) (x : A) :
  x ∈ l → test x = true → existsb test l = true.
Proof.
  intros Hin Hx. apply existsb_exists. exists x. split; [| done].
  by apply list_elem_of_In.
Qed.

Lemma lookup_map {A B} (f : A → B) (l : list A) (i : nat) :
  List.map f l !! i = f <$> l !! i.
Proof.
  revert i. induction l as [| x l IH]; intros [| i]; try done. apply IH.
Qed.

Lemma elem_of_map {A B} (f : A → B) (l : list A) (x : A) :
  x ∈ l → f x ∈ List.map f l.
Proof.
  intros Hin. apply list_elem_of_In, in_map. by apply list_elem_of_In.
Qed.

(** The loop over an array, against the renamed array. *)
Lemma every_from_renamed (rename : positive → positive) (s : positive)
    (items rest prefix : list DeepEqual.Any) :
  items = prefix ++ rest →
  Forall (λ x, DeepEqual.deepEqual x (DeepEqual.renamed rename x) = true) rest →
  DeepEqual.every_from
    (DeepEqual.AArray s (List.map (DeepEqual.renamed rename) items))
    rest (length prefix) = true.
Proof.
  revert prefix. induction rest as [| val rest IH]; intros prefix -> Hrest;
    [done |].
  apply Forall_cons in Hrest as [Hval Hrest].
  cbn [DeepEqual.every_from DeepEqual.at_index].
  assert (Hnth : nth (length prefix)
                   (List.map (DeepEqual.renamed rename) (prefix ++ val :: rest))
                   DeepEqual.AUndefined
                 = DeepEqual.renamed rename val).
  { rewrite List.map_app. cbn [List.map].
    rewrite <- (List.length_map (DeepEqual.renamed rename) prefix).
    apply nth_middle. }
  rewrite Hnth, Hval.
  specialize (IH (prefix ++ [val])).
  rewrite length_app, Nat.add_1_r in IH.
  apply IH; [by rewrite <- app_assoc | done].
Qed.

(** The loop over a [Map], against the renamed [Map]. *)
Lemma each_entry_renamed (rename : positive → positive) (s : positive)
    (entries rest : list (DeepEqual.Any * DeepEqual.Any)) :
  DeepEqual.distinct_keys entries →
  Forall (λ e, DeepEqual.is_primitive e.1 = true) entries →
  rest ⊆ entries →
  Forall (λ e, DeepEqual.deepEqual e.2 (DeepEqual.renamed rename e.2) = true)
    rest →
  DeepEqual.each_entry
    (DeepEqual.AMap s
       (List.map (λ e, (DeepEqual.renamed rename e.1,
                        DeepEqual.renamed rename e.2)) entries))
    rest = true.
Proof.
  intros Hdistinct Hkeys. induction rest as [| [key val] rest IH];
    intros Hsub Hrest; [done |].
  apply Forall_cons in Hrest as [Hval Hrest].
  assert (Hin : (key, val) ∈ entries) by (apply Hsub; left).
  assert (Hkey : DeepEqual.is_primitive key = true).
  { rewrite Forall_forall in Hkeys. apply (Hkeys _ Hin). }
  cbn [DeepEqual.each_entry DeepEqual.has DeepEqual.map_get].
  set (h := λ e : DeepEqual.Any * DeepEqual.Any,
              (DeepEqual.renamed rename e.1, DeepEqual.renamed rename e.2)).
  assert (Hhas : existsb (λ e, DeepEqual.same_value_zero e.1 key)
                   (List.map h entries) = true).
  { apply (existsb_elem _ _ (h (key, val))); [by apply elem_of_map |].
    unfold h. cbn [fst snd]. rewrite (renamed_primitive _ _ Hkey).
    by apply same_value_zero_refl. }
  rewrite Hhas. cbn [negb orb].
  apply list_elem_of_lookup in Hin as [i Hi].
  rewrite (find_unique _ _ i (h (key, val))).
  - unfold h at 1. cbn [fst snd] in Hval |- *. rewrite Hval. cbn [negb].
    apply IH; [| done]. intros e He. apply Hsub. by right.
  - by rewrite lookup_map, Hi.
  - unfold h. cbn [fst snd]. rewrite (renamed_primitive _ _ Hkey).
    by apply same_value_zero_refl.
  - intros j y Hj Hy. rewrite lookup_map in Hj.
    destruct (entries !! j) as [e |] eqn:He; [| done].
    injection Hj as <-. unfold h in Hy. cbn [fst snd] in Hy.
    assert (He1 : DeepEqual.is_primitive e.1 = true).
    { rewrite Forall_forall in Hkeys. apply Hkeys.
      apply list_elem_of_lookup. by exists j. }
    rewrite (renamed_primitive _ _ He1) in Hy.
    apply (Hdistinct j i e (key, val) He Hi Hy).
Qed.

(** The loop over a [Set] of primitives, against the renamed [Set]. *)
Lemma each_member_renamed (s : positive) (members rest : list DeepEqual.Any) :
  Forall (λ m, DeepEqual.is_primitive m = true) members →
  rest ⊆ members →
  DeepEqual.each_member (DeepEqual.ASet s members) rest = true.
Proof.
  intros Hmembers. induction rest as [| val rest IH]; intros Hsub; [done |].
  assert (Hin : val ∈ members) by (apply Hsub; left).
  cbn [DeepEqual.each_member DeepEqual.has].
  rewrite (existsb_elem _ _ val Hin).
  - cbn [negb]. apply IH. intros m Hm. apply Hsub. by right.
  - apply same_value_zero_refl. rewrite Forall_forall in Hmembers.
    by apply Hmembers.
Qed.

Lemma map_renamed_primitives (rename : positive → positive)
    (members : list DeepEqual.Any) :
  Forall (λ m, DeepEqual.is_primitive m = true) members →
  List.map (DeepEqual.renamed rename) members = members.
Proof.
  induction 1 as [| m members Hm _ IH]; [done |].
  cbn [List.map]. by rewrite (renamed_primitive _ _ Hm), IH.
Qed.

Lemma keys_renamed (rename : positive → positive) (r s : positive)
    (props : list (string * (bool * DeepEqual.Any))) :
  DeepEqual.keys
    (DeepEqual.AObject s
       (List.map (λ p, (p.1, (p.2.1, DeepEqual.renamed rename p.2.2))) props))
  = DeepEqual.keys (DeepEqual.AObject r props).
Proof.
  unfold DeepEqual.keys. cbn [DeepEqual.props_of].
  induction props as [| [key [enumerable val]] props IH]; [done |].
  cbn [List.map List.filter fst snd]. destruct enumerable; cbn; by rewrite IH.
Qed.

(** The loop over a plain object, against the renamed object. *)
Lemma each_prop_renamed (rename : positive → positive) (s : positive)
    (props rest : list (string * (bool * DeepEqual.Any))) :
  NoDup props.*1 →
  rest ⊆ props →
  Forall (λ p, DeepEqual.deepEqual p.2.2 (DeepEqual.renamed rename p.2.2) = true)
    rest →
  DeepEqual.each_prop
    (DeepEqual.AObject s
       (List.map (λ p, (p.1, (p.2.1, DeepEqual.renamed rename p.2.2))) props))
    rest = true.
Proof.
  intros Hnodup. induction rest as [| [key [enumerable val]] rest IH];
    intros Hsub Hrest; [done |].
  apply Forall_cons in Hrest as [Hval Hrest].
  assert (Hrest' : rest ⊆ props) by (intros p Hp; apply Hsub; by right).
  cbn [DeepEqual.each_prop]. destruct enumerable; [| by apply IH].
  assert (Hin : (key, (true, val)) ∈ props) by (apply Hsub; left).
  set (h := λ p : string * (bool * DeepEqual.Any),
              (p.1, (p.2.1, DeepEqual.renamed rename p.2.2))).
  unfold DeepEqual.hasOwn, DeepEqual.get. cbn [DeepEqual.props_of].
  rewrite (existsb_elem _ _ (h (key, (true, val)))); cycle 1.
  { by apply elem_of_map. }
  { unfold h. cbn [fst snd]. apply String.eqb_refl. }
  cbn [negb].
  apply list_elem_of_lookup in Hin as [i Hi].
  rewrite (find_unique _ _ i (h (key, (true, val)))).
  - unfold h at 1. cbn [fst snd] in Hval |- *. rewrite Hval. cbn [negb].
    by apply IH.
  - by rewrite lookup_map, Hi.
  - unfold h. cbn [fst snd]. apply String.eqb_refl.
  - intros j y Hj Hy. rewrite lookup_map in Hj.
    destruct (props !! j) as [p |] eqn:Hp; [| done].
    injection Hj as <-. unfold h in Hy. cbn [fst snd] in Hy.
    apply String.eqb_eq in Hy.
    apply (NoDup_lookup _ j i key Hnodup).
    + by rewrite list_lookup_fmap, Hp, <- Hy.
    + by rewrite list_lookup_fmap, Hi.
Qed.

(** X19.  Plain data is [deepEqual] to the same data held by other
    objects: whatever the identities of the arrays, maps, sets, dates
    and objects on the other side, equal structure compares equal. *)
Theorem deepEqual_structural (rename : positive → positive) (a : DeepEqual.Any) :
  DeepEqual.plain a →
  DeepEqual.deepEqual a (DeepEqual.renamed rename a) = true.
Proof.
  induction a as [s | n | b | | | r | r items IH | r entries IH
                  | r members | r time | r props IH] using Any_ind;
    intros Hplain.
  - cbn. by rewrite String.eqb_refl.
  - cbn. destruct (PrimFloat.eqb n n); [done |].
    unfold Js.same_value. by rewrite spec_float_same_refl.
  - by destruct b.
  - done.
  - done.
  - done.
  - apply plain_array in Hplain.
    cbn [DeepEqual.renamed]. rewrite deepEqual_array.
    destruct (Pos.eqb r (rename r)); [done |].
    rewrite List.length_map, Nat.eqb_refl. cbn [negb].
    apply (every_from_renamed rename (rename r) items items []); [done |].
    rewrite Forall_forall in IH, Hplain |- *. intros x Hx.
    by apply IH, Hplain.
  - apply plain_map in Hplain as [Hdistinct Hentries].
    cbn [DeepEqual.renamed]. rewrite deepEqual_map.
    destruct (Pos.eqb r (rename r)); [done |].
    rewrite List.length_map, Nat.eqb_refl. cbn [negb].
    apply each_entry_renamed; [done | | done |].
    + eapply Forall_impl; [exact Hentries |]. by intros e [He _].
    + rewrite Forall_forall in IH, Hentries |- *. intros e He.
      by apply IH, Hentries.
  - cbn [DeepEqual.plain] in Hplain.
    cbn [DeepEqual.renamed]. rewrite deepEqual_set.
    destruct (Pos.eqb r (rename r)); [done |].
    rewrite List.length_map, Nat.eqb_refl. cbn [negb].
    rewrite (map_renamed_primitives _ _ Hplain).
    by apply each_member_renamed.
  - cbn [DeepEqual.plain] in Hplain.
    cbn [DeepEqual.renamed]. rewrite deepEqual_date.
    destruct (Pos.eqb r (rename r)); [done |].
    unfold PrimFloat.is_nan in Hplain. by apply negb_false_iff.
  - apply plain_object in Hplain as [Hnodup Hprops].
    cbn [DeepEqual.renamed]. rewrite deepEqual_object.
    destruct (Pos.eqb r (rename r)); [done |].
    rewrite (keys_renamed rename r), Nat.eqb_refl. cbn [negb].
    apply each_prop_renamed; [done | done |].
    rewrite Forall_forall in IH, Hprops |- *. intros p Hp.
    by apply IH, Hprops.
Qed.

(** The structure of the documentation's example compares equal. *)
Lemma deepEqual_structural_a_b_c :
  DeepEqual.plain DeepScenario.a_b_c
  ∧ DeepEqual.deepEqual DeepScenario.a_b_c
      (DeepEqual.renamed DeepScenario.again DeepScenario.a_b_c) = true.
Proof.
  assert (Hplain : DeepEqual.plain DeepScenario.a_b_c).
  { cbn. repeat split; try reflexivity; by apply (bool_decide_unpack _). }
  split; [exact Hplain |].
  exact (deepEqual_structural DeepScenario.again DeepScenario.a_b_c Hplain).
Defined.

(** *** Sets *)

Lemma each_member_missing (b : DeepEqual.Any) (rest : list DeepEqual.Any)
    (m : DeepEqual.Any) :
  m ∈ rest → DeepEqual.has b m = false → DeepEqual.each_member b rest = false.
Proof.
  intros Hin Hhas. induction rest as [| val rest IH]; [by inversion Hin |].
  cbn [DeepEqual.each_member].
  destruct (DeepEqual.has b val) eqn:Hval; [| done]. cbn [negb].
  apply IH. inversion Hin; subst; [congruence | done].
Qed.

(** X20.  Two distinct [Set]s are compared member by member with
    [Set.prototype.has], that is by SameValueZero and never deeply: a
    member of the first that the second does not hold makes them
    unequal, whatever its structure. *)
Theorem deepEqual_set_members_by_identity (r s : positive)
    (members members' : list DeepEqual.Any) (m : DeepEqual.Any) :
  r ≠ s → m ∈ members →
  Forall (λ m', DeepEqual.same_value_zero m' m = false) members' →
  DeepEqual.deepEqual (DeepEqual.ASet r members) (DeepEqual.ASet s members')
  = false.
Proof.
  intros Hrs Hin Hmissing. rewrite deepEqual_set.
  apply Pos.eqb_neq in Hrs. rewrite Hrs.
  destruct (negb _); [done |].
  apply (each_member_missing _ _ m Hin). cbn [DeepEqual.has].
  induction Hmissing as [| m' members' Hm' _ IH]; [done |].
  cbn [existsb]. by rewrite Hm', IH.
Qed.

(** Two sets that each hold one object [{ a: 1 }] are not [deepEqual],
    though the two objects are. *)
Lemma deepEqual_sets_of_equal_objects :
  DeepEqual.deepEqual (DeepScenario.a_1 2) (DeepScenario.a_1 4) = true
  ∧ DeepEqual.deepEqual DeepScenario.set_of_a_1 DeepScenario.set_of_a_1_again
    = false.
Proof.
  split; [reflexivity |].
  apply (deepEqual_set_members_by_identity 1 3 [DeepScenario.a_1 2]
           [DeepScenario.a_1 4] (DeepScenario.a_1 2)).
  - discriminate.
  - left.
  - repeat constructor.
Defined.
